(** * uwtools drivers: a shallow embedding and its checked properties

    The development embeds three pieces of the [uwtools] package:

    - [uwtools.drivers.forecast.FV3Forecast]: run-directory provisioning,
      the MPI environment string, the batch script and the [run] method;
    - [uwtools.drivers.orog.Orog]: the external grid-file task and the
      rendering of the input config file;
    - [uwtools.api.chgres_cube.execute]: task dispatch by attribute name.

    Python code that touches the outside world is embedded in a state and
    exception monad over an explicit [world]: a directory tree, the log,
    the list of spawned shell commands and the list of submitted jobs. *)

From Stdlib Require Import ZArith Lia Ascii.
From stdpp Require Import gmap strings list fin_maps pretty.

Open Scope string_scope.
Open Scope list_scope.
Open Scope Z_scope.

(** ** Python values and string helpers *)

Module Py.

(** Scalar configuration values, as a YAML document provides them. *)
Inductive scalar :=
| PNone
| PBool (b : bool)
| PInt (z : Z)
| PStr (s : string).

(** [str(v)] *)
Definition py_str (v : scalar) : string :=
  match v with
  | PNone => "None"
  | PBool true => "True"
  | PBool false => "False"
  | PInt z => pretty z
  | PStr s => s
  end.

(** [sep.join(l)] *)
Fixpoint str_join (sep : string) (l : list string) : string :=
  match l with
  | [] => ""
  | x :: l' =>
      match l' with
      | [] => x
      | _ :: _ => x +:+ sep +:+ str_join sep l'
      end
  end.

(** [d.get(key, default)] on an optional entry. *)
Definition get {A} (entry : option A) (default : A) : A :=
  match entry with
  | Some v => v
  | None => default
  end.

(** [list(range(start, stop, step))]; [None] is Python's
    [ValueError] for a zero step. *)
Definition py_range (start stop step : Z) : option (list Z) :=
  if step =? 0 then None
  else
    let n :=
      if 0 <? step then (stop - start + step - 1) / step
      else (start - stop - step - 1) / (- step) in
    Some ((fun i => start + Z.of_nat i * step) <$> seq 0 (Z.to_nat n)).

(** Values with containers, as they reach a log line or a file body. *)
#[warnings="-register-all"]
Inductive value :=
| VScalar (s : scalar)
| VList (l : list value)
| VDict (d : list (string * value)).

(** A [dict] keeps insertion order: [d[k] = v] and [d.update(new)]. *)
Fixpoint dict_set {V} (k : string) (v : V) (d : list (string * V)) : list (string * V) :=
  match d with
  | [] => [(k, v)]
  | (k', v') :: d' =>
      if bool_decide (k = k') then (k, v) :: d' else (k', v') :: dict_set k v d'
  end.

Definition dict_update {V} (d new : list (string * V)) : list (string * V) :=
  fold_left (fun acc kv => dict_set kv.1 kv.2 acc) new d.

Fixpoint dict_lookup {V} (k : string) (d : list (string * V)) : option V :=
  match d with
  | [] => None
  | (k', v) :: d' => if bool_decide (k = k') then Some v else dict_lookup k d'
  end.

(** The one-character string [\n]. *)
Definition LF : string := String (ascii_of_nat 10) EmptyString.

(** The exceptions the embedded code can raise. *)
Inductive exn :=
| ValueError (msg : string)
| KeyError (key : string)
| TypeError (msg : string)
| AttributeError (name : string)
| FileExistsError (path : string)
| FileNotFoundError (path : string)
| NotADirectoryError (path : string)
| IsADirectoryError (path : string).

(** A computation without effects that may raise. *)
Inductive result (A : Type) :=
| Ok (a : A)
| Error (e : exn).
Arguments Ok {A} a.
Arguments Error {A} e.

Definition result_bind {A B} (r : result A) (k : A -> result B) : result B :=
  match r with
  | Ok a => k a
  | Error e => Error e
  end.

(** [[f(x) for x in l]], stopping at the first exception. *)
Fixpoint result_map {A B} (f : A -> result B) (l : list A) : result (list B) :=
  match l with
  | [] => Ok []
  | x :: l' =>
      result_bind (f x) (fun y =>
      result_bind (result_map f l') (fun ys => Ok (y :: ys)))
  end.

End Py.
Export Py.

(** ** POSIX paths and a directory tree *)

Module Posix.

Definition slash : ascii := "/"%char.

Definition startswith_slash (s : string) : bool :=
  match s with
  | String c _ => bool_decide (c = slash)
  | EmptyString => false
  end.

Fixpoint endswith_slash (s : string) : bool :=
  match s with
  | EmptyString => false
  | String c EmptyString => bool_decide (c = slash)
  | String _ s' => endswith_slash s'
  end.

(** [posixpath.join(a, b)] *)
Definition os_path_join (a b : string) : string :=
  if startswith_slash b then b
  else if bool_decide (a = "") || endswith_slash a then a +:+ b
  else a +:+ "/" +:+ b.

(** [s.split("/")] *)
Fixpoint split_slash (s : string) : list string :=
  match s with
  | EmptyString => [""]
  | String c s' =>
      if bool_decide (c = slash) then "" :: split_slash s'
      else
        match split_slash s' with
        | [] => [String c ""]
        | h :: t => String c h :: t
        end
  end.

Definition proper_name (x : string) : bool :=
  negb (bool_decide (x = "")) && negb (bool_decide (x = ".")).

(** The components the kernel walks: empty names and [.] are skipped. *)
Definition components (s : string) : list string :=
  filter (fun x => proper_name x = true) (split_slash s).

(** A node of the directory tree. *)
#[warnings="-register-all"]
Inductive node :=
| File (content : string)
| Symlink (target : string)
| Dir (entries : gmap string node).

Inductive errno := EEXIST | ENOENT | ENOTDIR.

Fixpoint lookup_path (p : list string) (n : node) : option node :=
  match p with
  | [] => Some n
  | c :: p' =>
      match n with
      | Dir m =>
          match m !! c with
          | Some n' => lookup_path p' n'
          | None => None
          end
      | _ => None
      end
  end.

(** Unlink the entry at [p], with everything below it. *)
Fixpoint remove_path (p : list string) (n : node) : node :=
  match p with
  | [] => n
  | c :: p' =>
      match n with
      | Dir m =>
          match p' with
          | [] => Dir (delete c m)
          | _ :: _ =>
              match m !! c with
              | Some n' => Dir (<[c := remove_path p' n']> m)
              | None => n
              end
          end
      | _ => n
      end
  end.

(** Put [v] at [p]; every proper prefix of [p] must be a directory. *)
Fixpoint place_path (p : list string) (v : node) (n : node) : errno + node :=
  match p with
  | [] => inl EEXIST
  | c :: p' =>
      match n with
      | Dir m =>
          match p' with
          | [] => inr (Dir (<[c := v]> m))
          | _ :: _ =>
              match m !! c with
              | Some n' =>
                  match place_path p' v n' with
                  | inr n'' => inr (Dir (<[c := n'']> m))
                  | inl e => inl e
                  end
              | None => inl ENOENT
              end
          end
      | _ => inl ENOTDIR
      end
  end.

(** [os.makedirs(p)] on the tree: missing ancestors are created, an
    existing leaf is [EEXIST], a non-directory ancestor [ENOTDIR]. *)
Fixpoint makedirs_at (p : list string) (n : node) : errno + node :=
  match p with
  | [] => inl EEXIST
  | c :: p' =>
      match n with
      | Dir m =>
          let below :=
            match m !! c with
            | Some n' =>
                match p' with
                | [] => inl EEXIST
                | _ :: _ => makedirs_at p' n'
                end
            | None =>
                match p' with
                | [] => inr (Dir ∅)
                | _ :: _ => makedirs_at p' (Dir ∅)
                end
            end in
          match below with
          | inr n'' => inr (Dir (<[c := n'']> m))
          | inl e => inl e
          end
      | _ => inl ENOTDIR
      end
  end.

(** [stat]: a symbolic link in the last component is followed, at most
    [fuel] times. *)
Fixpoint stat_fuel (fuel : nat) (rootn : node) (p : list string) : option node :=
  match lookup_path p rootn with
  | Some (Symlink t) =>
      match fuel with
      | O => None
      | S fuel' =>
          stat_fuel fuel' rootn
            (if startswith_slash t then components t
             else removelast p ++ components t)
      end
  | o => o
  end.

Definition stat : node -> list string -> option node := stat_fuel 40.

End Posix.
Export Posix.

(** ** The world and the monad of effects *)

Module Effects.

Inductive level := INFO | CRITICAL.

(** A log message: literal text, with interpolated containers kept as
    data (their [repr] is not rendered). *)
Inductive piece :=
| Lit (s : string)
| Repr (v : value).

Record world := World {
  root : node;                       (* the directory tree, from [/] *)
  cwd : list string;                 (* components of the working directory *)
  log : list (level * list piece);   (* records emitted through [logging] *)
  procs : list string;               (* shell commands spawned, oldest first *)
  jobs : list string;                (* script paths handed to the scheduler *)
  returncode : string -> Z;          (* exit status each command would have *)
  timestamp : string;                (* suffix a rename would use *)
  dot : string                       (* DOT text of the last task graph *)
}.

Definition set_root (r : node) (w : world) : world :=
  World r (cwd w) (log w) (procs w) (jobs w) (returncode w) (timestamp w) (dot w).
Definition add_log (l : level) (m : list piece) (w : world) : world :=
  World (root w) (cwd w) (log w ++ [(l, m)]) (procs w) (jobs w)
    (returncode w) (timestamp w) (dot w).
Definition add_proc (c : string) (w : world) : world :=
  World (root w) (cwd w) (log w) (procs w ++ [c]) (jobs w)
    (returncode w) (timestamp w) (dot w).
Definition add_job (j : string) (w : world) : world :=
  World (root w) (cwd w) (log w) (procs w) (jobs w ++ [j])
    (returncode w) (timestamp w) (dot w).

(** How a call ends: a value, a raised exception, or [SystemExit]. *)
Inductive outcome (A : Type) :=
| Ret (a : A)
| Raise (e : exn)
| Exit (code : Z).
Arguments Ret {A} a.
Arguments Raise {A} e.
Arguments Exit {A} code.

Definition M (A : Type) : Type := world -> outcome A * world.

Definition ret {A} (a : A) : M A := fun w => (Ret a, w).
Definition raise {A} (e : exn) : M A := fun w => (Raise e, w).
Definition sys_exit {A} (code : Z) : M A := fun w => (Exit code, w).

Definition bind {A B} (c : M A) (k : A -> M B) : M B :=
  fun w =>
    match c w with
    | (Ret a, w') => k a w'
    | (Raise e, w') => (Raise e, w')
    | (Exit n, w') => (Exit n, w')
    end.

(** [try: c  except Exception as e: h(e)]; [SystemExit] is not an
    [Exception] and passes through. *)
Definition try_except {A} (c : M A) (h : exn -> M A) : M A :=
  fun w =>
    match c w with
    | (Raise e, w') => h e w'
    | r => r
    end.

Declare Scope py_scope.
Delimit Scope py_scope with py.
Notation "x <- c ;; k" := (bind c (fun x => k))
  (at level 100, c at next level, k at level 200, right associativity) : py_scope.
Notation "c ;; k" := (bind c (fun _ => k))
  (at level 100, k at level 200, right associativity) : py_scope.
Open Scope py_scope.

Definition lift {A} (r : result A) : M A :=
  match r with
  | Ok a => ret a
  | Error e => raise e
  end.

(** [for x in l: body(x)] *)
Fixpoint for_each {A} (l : list A) (body : A -> M unit) : M unit :=
  match l with
  | [] => ret tt
  | x :: l' => body x ;; for_each l' body
  end.

Definition logging_info (m : list piece) : M unit :=
  fun w => (Ret tt, add_log INFO m w).
Definition logging_critical (m : list piece) : M unit :=
  fun w => (Ret tt, add_log CRITICAL m w).

(** The tree path a path string denotes. *)
Definition resolve (w : world) (s : string) : list string :=
  (if startswith_slash s then [] else cwd w) ++ components s.

Definition path_stat (s : string) (w : world) : option node :=
  if bool_decide (s = "") then None else stat (root w) (resolve w s).

(** [os.path.isdir(s)] *)
Definition os_path_isdir (s : string) : M bool :=
  fun w =>
    (Ret match path_stat s w with Some (Dir _) => true | _ => false end, w).

(** [os.path.lexists(s)] *)
Definition lexists (s : string) (w : world) : bool :=
  negb (bool_decide (s = ""))
  && bool_decide (is_Some (lookup_path (resolve w s) (root w))).

Definition oserror (e : errno) (s : string) : exn :=
  match e with
  | EEXIST => FileExistsError s
  | ENOENT => FileNotFoundError s
  | ENOTDIR => NotADirectoryError s
  end.

(** [os.makedirs(s)] *)
Definition os_makedirs (s : string) : M unit :=
  fun w =>
    if bool_decide (s = "") then (Raise (FileNotFoundError s), w)
    else
      match makedirs_at (resolve w s) (root w) with
      | inr r => (Ret tt, set_root r w)
      | inl e => (Raise (oserror e s), w)
      end.

(** [os.symlink(target, s)] *)
Definition os_symlink (target s : string) : M unit :=
  fun w =>
    if lexists s w then (Raise (FileExistsError s), w)
    else
      match place_path (resolve w s) (Symlink target) (root w) with
      | inr r => (Ret tt, set_root r w)
      | inl e => (Raise (oserror e s), w)
      end.

(** [open(s, "w").write(text)] *)
Definition write_text (s text : string) : M unit :=
  fun w =>
    match lookup_path (resolve w s) (root w) with
    | Some (Dir _) => (Raise (IsADirectoryError s), w)
    | _ =>
        match place_path (resolve w s) (File text) (root w) with
        | inr r => (Ret tt, set_root r w)
        | inl e => (Raise (oserror e s), w)
        end
    end.

(** [subprocess.run(cmd, shell=True, check=False).returncode] *)
Definition subprocess_run (cmd : string) : M Z :=
  fun w => (Ret (returncode w cmd), add_proc cmd w).

End Effects.
Export Effects.

(** ** [uwtools.drivers.forecast] *)

Module Forecast.

(** [config["runtime_info"]]: both keys are optional. *)
Record runtime_info_t := RuntimeInfo {
  threads : option scalar;
  mpi_args : option (list string)
}.

(** A [str.format] template with the two fields the driver fills in. *)
Inductive segment :=
| Text (s : string)
| FieldTile
| FieldForecastHour.

(** [experiment_config["preprocessing"]["lateral_boundary_conditions"]] *)
Record lbcs_t := Lbcs {
  offset : Z;
  interval_hours : Z;
  output_file_template : list segment
}.

(** [experiment_config["forecast"]] *)
Record config_t := Config {
  run_dir : string;
  static : list (string * string);
  cycle_dependent : list (string * string);
  runtime_info : runtime_info_t;
  tiles : list scalar;
  length : Z
}.

Definition datetime := Z.
Definition BatchScript := list string.

(** The driver object. [run_cmd] and the scheduler's directive lines
    come from the base class and the scheduler package, which are
    outside this file's sources; they are fields of the object. *)
Record FV3Forecast := Driver {
  _config : config_t;
  lateral_boundary_conditions : lbcs_t;
  _dry_run : bool;
  _batch_script : option string;
  run_cmd : list string -> string;
  scheduler_batch_script : BatchScript
}.

(** Modelled from the spec: the [BatchScript] class lives in
    [uwtools.scheduler], which is not among the sources. Section 3: a
    batch script is an ordered sequence of text lines; its text is the
    lines, one per line. *)
Definition BatchScript_str (bs : BatchScript) : string := str_join LF bs.

(** Modelled from the spec: [uwtools.utils.file.handle_existing] is not
    among the sources. Section 4.3: under [delete] an existing path is
    removed entirely; under [rename] an existing path is moved aside to
    a sibling named with a deterministic suffix; a path that does not
    exist is left alone. *)
Definition handle_existing (directory : string) (exist_act : string) : M unit :=
  fun w =>
    if lexists directory w then
      if bool_decide (exist_act = "delete") then
        (Ret tt, set_root (remove_path (resolve w directory) (root w)) w)
      else if bool_decide (exist_act = "rename") then
        let aside := directory +:+ timestamp w in
        match lookup_path (resolve w directory) (root w) with
        | Some n =>
            if lexists aside w then (Raise (FileExistsError aside), w)
            else
              match place_path (resolve w aside) n
                      (remove_path (resolve w directory) (root w)) with
              | inr r => (Ret tt, set_root r w)
              | inl e => (Raise (oserror e aside), w)
              end
        | None => (Ret tt, w)
        end
      else (Ret tt, w)
    else (Ret tt, w).

(** [FV3Forecast.create_directory_structure] *)
Definition create_directory_structure
    (run_directory : string) (exist_act : string) : M unit :=
  if negb (bool_decide (exist_act ∈ ["delete"; "rename"; "quit"])) then
    raise (ValueError ("Bad argument: " +:+ exist_act))
  else
    quit <- (if bool_decide (exist_act = "quit")
             then os_path_isdir run_directory else ret false) ;;
    (if quit : bool then
       logging_critical [Lit "User chose quit option when creating directory"] ;;
       sys_exit 1
     else ret tt) ;;
    handle_existing run_directory exist_act ;;
    for_each ["INPUT"; "RESTART"] (fun subdir =>
      let path := os_path_join run_directory subdir in
      logging_info [Lit ("Creating directory: " +:+ path)] ;;
      os_makedirs path).

(** [FV3Forecast._mpi_env_variables] *)
Definition _mpi_env_variables (self : FV3Forecast) (delimiter : string) : string :=
  let envvars := [
    ("KMP_AFFINITY", PStr "scatter");
    ("OMP_NUM_THREADS", get (threads (runtime_info (_config self))) (PInt 1));
    ("OMP_STACKSIZE", get (threads (runtime_info (_config self))) (PStr "512m"));
    ("MPI_TYPE_DEPTH", PInt 20);
    ("ESMF_RUNTIME_COMPLIANCECHECK", PStr "OFF:depth=4")
  ] in
  str_join delimiter ((fun kv => kv.1 +:+ "=" +:+ py_str kv.2) <$> envvars).

(** [FV3Forecast.batch_script] *)
Definition batch_script (self : FV3Forecast) : BatchScript :=
  let pre_run := _mpi_env_variables self LF in
  let run_time_args := get (mpi_args (runtime_info (_config self))) [] in
  let bs := scheduler_batch_script self in
  let bs := bs ++ [pre_run] in
  let bs := bs ++ [run_cmd self run_time_args] in
  bs.

(** [FV3Forecast._boundary_hours] *)
Definition _boundary_hours (self : FV3Forecast) (lbcs_config : lbcs_t) : Z * Z * Z :=
  let offset := Z.abs (offset lbcs_config) in
  let end_hour := length (_config self) + offset + 1 in
  (offset, interval_hours lbcs_config, end_hour).

(** [template.format(tile=tile, forecast_hour=forecast_hour)] *)
Definition format (template : list segment) (tile : scalar) (forecast_hour : Z) : string :=
  fold_right (fun seg acc =>
    match seg with
    | Text s => s
    | FieldTile => py_str tile
    | FieldForecastHour => pretty forecast_hour
    end +:+ acc) "" template.

(** [FV3Forecast._define_boundary_files]; [range] raises on a zero
    interval, once a tile is being processed. *)
Definition _define_boundary_files (self : FV3Forecast) : M (list (string * string)) :=
  let lbcs_config := lateral_boundary_conditions self in
  let boudary_file_template := output_file_template lbcs_config in
  let '(offset, interval, endhour) := _boundary_hours self lbcs_config in
  fold_left (fun acc tile =>
    boundary_files <- acc ;;
    match py_range offset endhour interval with
    | None => raise (ValueError "range() arg 3 must not be zero")
    | Some hours =>
        ret (fold_left (fun boundary_files boundary_hour =>
               let forecast_hour := boundary_hour - offset in
               let link_name :=
                 "gfs_bndy.tile" +:+ py_str tile +:+ "." +:+ pretty forecast_hour +:+ ".nc" in
               let boundary_file_path := format boudary_file_template tile boundary_hour in
               dict_update boundary_files [(link_name, boundary_file_path)])
             hours boundary_files)
    end) (tiles (_config self)) (ret []).

(** Modelled from the spec: [Driver.stage_files] belongs to the base
    class, which is not among the sources. Sections 4.2 and 8: each
    entry [dst: src] of the mapping is staged in the run directory as
    [run/dst], a link resolving to [src] or a copy of [src]. *)
Definition stage_files (run_directory : string) (files_to_stage : list (string * string))
    (link_files : bool) : M unit :=
  for_each files_to_stage (fun entry =>
    let dst_path := os_path_join run_directory entry.1 in
    if link_files then os_symlink entry.2 dst_path
    else
      fun w =>
        match path_stat entry.2 w with
        | Some (File content) => write_text dst_path content w
        | _ => (Raise (FileNotFoundError entry.2), w)
        end).

(** Modelled from the spec: [BatchScript.dump] lives in
    [uwtools.scheduler], which is not among the sources. Section 4.4:
    the rendered script is written to a file. *)
Definition BatchScript_dump (text : string) (outpath : string) : M unit :=
  write_text outpath text.

(** Modelled from the spec: [scheduler.run_job] lives in
    [uwtools.scheduler], which is not among the sources. Section 4.4:
    the script file is submitted through the scheduler client. *)
Definition scheduler_run_job (outpath : string) : M unit :=
  fun w => (Ret tt, add_job outpath w).

Definition runtime_info_value (ri : runtime_info_t) : value :=
  VDict (match threads ri with Some t => [("threads", VScalar t)] | None => [] end
         ++ match mpi_args ri with
            | Some a => [("mpi_args", VList ((fun x => VScalar (PStr x)) <$> a))]
            | None => []
            end).

(** [FV3Forecast.run]. The [update] of [config["cycle-dependent"]] is
    read back once, by the staging loop; the updated mapping is bound
    where that loop reads it. *)
Definition run (self : FV3Forecast) (cycle : datetime) : M unit :=
  let run_directory := run_dir (_config self) in
  create_directory_structure run_directory "delete" ;;
  boundary_files <- _define_boundary_files self ;;
  let cycle_dependent' := dict_update (cycle_dependent (_config self)) boundary_files in
  for_each [static (_config self); cycle_dependent'] (fun files =>
    stage_files run_directory files true) ;;
  let run_time_args := get (mpi_args (runtime_info (_config self))) [] in
  match _batch_script self with
  | Some script_name =>
      let batch_script := batch_script self in
      if _dry_run self then
        logging_info [Lit "Batch Script:"] ;;
        logging_info [Lit (BatchScript_str batch_script)] ;;
        ret tt
      else
        let outpath := os_path_join run_directory script_name in
        BatchScript_dump (BatchScript_str batch_script) outpath ;;
        scheduler_run_job outpath ;;
        ret tt
  | None =>
      logging_info [Lit "CRH: RTA = ";
                    Repr (VList ((fun x => VScalar (PStr x)) <$> run_time_args));
                    Lit " ";
                    Repr (runtime_info_value (runtime_info (_config self)))] ;;
      if _dry_run self then
        logging_info [Lit "Would run: "] ;;
        logging_info [Lit (run_cmd self run_time_args)] ;;
        ret tt
      else
        _ <- subprocess_run (run_cmd self run_time_args) ;;
        ret tt
  end.

End Forecast.

(** ** [uwtools.drivers.orog] *)

Module Orog.

(** [pathlib.PurePosixPath]: the anchor and the normalised parts. *)
Record Path := MkPath {
  anchor : string;
  parts : list string
}.

(** [Path(s)]: exactly two leading slashes are kept, any other number
    of them is one root; empty and [.] components are dropped. *)
Definition mkPath (s : string) : Path :=
  let anchor :=
    match s with
    | String c1 (String c2 (String c3 _)) =>
        if bool_decide (c1 = slash) then
          if bool_decide (c2 = slash) && negb (bool_decide (c3 = slash))
          then "//" else "/"
        else ""
    | String c1 (String c2 EmptyString) =>
        if bool_decide (c1 = slash) then
          if bool_decide (c2 = slash) then "//" else "/"
        else ""
    | String c1 EmptyString => if bool_decide (c1 = slash) then "/" else ""
    | EmptyString => ""
    end in
  MkPath anchor (components s).

(** [str(p)] *)
Definition Path_str (p : Path) : string :=
  match anchor p, parts p with
  | EmptyString, [] => "."
  | a, ps => a +:+ str_join "/" ps
  end.

(** [p / name] for a relative [name] *)
Definition Path_div (p : Path) (name : string) : Path :=
  MkPath (anchor p) (parts p ++ components name).

(** [p.is_file()] *)
Definition Path_is_file (p : Path) (w : world) : bool :=
  match path_stat (Path_str p) w with
  | Some (File _) => true
  | _ => false
  end.

(** [iotaa.asset(ref, ready)] *)
Record asset := Asset {
  ref : Path;
  ready : world -> bool
}.

(** What an [@external] generator yields: a name, then its assets. *)
Record external_task := External {
  ext_name : string;
  ext_assets : option asset
}.

(** What a [@task] generator yields (name, assets, requirements),
    and the statements after its last [yield]. *)
Record task := Task {
  task_name : string;
  task_assets : asset;
  task_requires : external_task;
  task_action : M unit
}.

(** The driver's configuration block; every key but [grid_file] is
    read with [get]. *)
Record config_t := Config {
  grid_file_entry : option scalar;
  old_line1_items : option (gmap string scalar);
  orog_file : option scalar;
  mask : option scalar;
  merge : option scalar
}.

(** The driver object. [taskname] comes from the base class, which is
    outside this file's sources. *)
Record Orog := Driver {
  config : config_t;
  rundir : Path;
  taskname : string -> string
}.

(** [self.config["grid_file"]] *)
Definition config_grid_file (self : Orog) : result scalar :=
  match grid_file_entry (config self) with
  | Some v => Ok v
  | None => Error (KeyError "grid_file")
  end.

(** [Path(v)]: only a string is accepted. *)
Definition Path_of (v : scalar) : result Path :=
  match v with
  | PStr s => Ok (mkPath s)
  | _ => Error (TypeError "expected str, bytes or os.PathLike object")
  end.

(** [Orog.grid_file] *)
Definition grid_file (self : Orog) : result external_task :=
  result_bind (config_grid_file self) (fun v =>
  result_bind (Path_of v) (fun grid_file =>
  Ok (External (taskname self "Input grid file")
        (if negb (bool_decide (Path_str grid_file = "none"))
         then Some (Asset grid_file (Path_is_file grid_file))
         else None)))).

(** [Orog._input_config_path] *)
Definition _input_config_path (self : Orog) : Path :=
  Path_div (rundir self) "INPS".

Definition ordered_entries : list string :=
  ["mtnres"; "lonb"; "latb"; "jcap"; "nr"; "nf1"; "nf2"; "efac"; "blat"].

(** [sep.join(items)] on arbitrary values: only strings are accepted. *)
Definition join_values (sep : string) (items : list value) : result string :=
  result_bind
    (result_map (fun i =>
       match i with
       | VScalar (PStr s) => Ok s
       | _ => Error (TypeError "sequence item: expected str instance")
       end) items)
    (fun strs => Ok (str_join sep strs)).

Definition is_not_None (v : value) : bool :=
  match v with
  | VScalar PNone => false
  | _ => true
  end.

(** The text [Orog.input_config_file] writes: the statements from
    [inputs = ...] up to the argument of [f.write]. *)
Definition input_config_text (self : Orog) : result string :=
  let inputs := old_line1_items (config self) in
  result_bind
    (match inputs with
     | None => Ok (VScalar PNone)
     | Some d =>
         if bool_decide (d = ∅) then Ok (VDict [])
         else
           result_bind
             (result_map (fun i =>
                match d !! i with
                | Some v => Ok (py_str v)
                | None => Error (KeyError i)
                end) ordered_entries)
             (fun strs => Ok (VScalar (PStr (str_join " " strs))))
     end)
    (fun inputs =>
  result_bind (config_grid_file self) (fun outgrid =>
  let orogfile := get (orog_file (config self)) PNone in
  let mask_only := get (mask (config self)) (PStr ".false.") in
  let merge_file := get (merge (config self)) (PStr "none") in
  let content :=
    filter (fun i => is_not_None i = true)
      [inputs; VScalar outgrid; VScalar orogfile; VScalar mask_only; VScalar merge_file] in
  join_values LF content)).

(** [Orog.input_config_file] *)
Definition input_config_file (self : Orog) : result task :=
  let path := _input_config_path self in
  result_bind (grid_file self) (fun req =>
  Ok (Task (taskname self (Path_str path))
        (Asset path (Path_is_file path))
        req
        (text <- lift (input_config_text self) ;;
         write_text (Path_str path) text))).

End Orog.

(** ** [uwtools.api.chgres_cube] *)

Module ChgresCubeApi.

(** What [getattr(obj, name)] can find on a driver object. *)
Inductive attr :=
| TaskMethod (body : M unit)   (* a workflow task of the driver *)
| Method0 (body : M unit)      (* any other method callable without arguments *)
| MethodArgs                   (* a method that needs arguments *)
| Data.                        (* a property or data attribute: not callable *)

(** The [ChgresCube] class is outside this file's sources: an object
    is given by the attributes its class defines. *)
Record ChgresCube := Object {
  class_attrs : gmap string attr
}.

(** Attributes every object inherits from [object]. *)
Definition object_attrs : gmap string attr :=
  list_to_map [
    ("__repr__", Method0 (ret tt));
    ("__str__", Method0 (ret tt));
    ("__hash__", Method0 (ret tt));
    ("__dir__", Method0 (ret tt));
    ("__sizeof__", Method0 (ret tt));
    ("__eq__", MethodArgs);
    ("__ne__", MethodArgs);
    ("__setattr__", MethodArgs);
    ("__getattribute__", MethodArgs);
    ("__doc__", Data);
    ("__dict__", Data);
    ("__module__", Data)
  ].

(** [getattr(obj, name)] *)
Definition getattr (obj : ChgresCube) (name : string) : result attr :=
  match class_attrs obj !! name with
  | Some a => Ok a
  | None =>
      match object_attrs !! name with
      | Some a => Ok a
      | None => Error (AttributeError name)
      end
  end.

(** [f()] *)
Definition call (f : attr) : M unit :=
  match f with
  | TaskMethod body => body
  | Method0 body => body
  | MethodArgs => raise (TypeError "missing required positional argument")
  | Data => raise (TypeError "object is not callable")
  end.

(** [graph()] *)
Definition graph : M string := fun w => (Ret (dot w), w).

(** [execute]; [_ChgresCube] stands for the class constructor. A
    [Path] given as [graph_file] is always true. *)
Definition execute
    (_ChgresCube : option string -> Forecast.datetime -> bool -> bool -> M ChgresCube)
    (task : string) (cycle : Forecast.datetime) (config : option string)
    (batch dry_run : bool) (graph_file : option string) : M bool :=
  obj <- _ChgresCube config cycle batch dry_run ;;
  f <- lift (getattr obj task) ;;
  call f ;;
  match graph_file with
  | Some g =>
      text <- graph ;;
      write_text g (text +:+ LF)
  | None => ret tt
  end ;;
  ret true.

End ChgresCubeApi.


(** ** More of [uwtools.drivers.forecast] *)

Module ForecastResources.

(** What [resources] reads from the experiment configuration:
    [experiment_config["user"]["account"]],
    [experiment_config["platform"]["scheduler"]] and
    [config["jobinfo"]]. *)
Record experiment_t := Experiment {
  user_account : scalar;
  platform_scheduler : scalar;
  jobinfo : list (string * scalar)
}.

(** [FV3Forecast.resources]: a dict display whose last item unpacks
    [jobinfo]. *)
Definition resources (e : experiment_t) : list (string * scalar) :=
  dict_update
    (dict_set "scheduler" (platform_scheduler e)
       (dict_set "account" (user_account e) []))
    (jobinfo e).

End ForecastResources.

(** ** More of [uwtools.drivers.orog] *)

Module OrogRun.
Import Orog.

(** [p.name] *)
Definition Path_name (p : Path) : string := default "" (last (parts p)).

(** [Orog._runcmd]; [executable] stands for
    [config[STR.execution][STR.executable]], whose key names live in
    [uwtools.strings]. *)
Definition _runcmd (self : Orog) (executable : string) : string :=
  executable +:+ " < " +:+ Path_name (_input_config_path self).

End OrogRun.

(** * Properties *)

(** ** The primitives on concrete inputs *)

Section Checks.

Example join_plain : os_path_join "run" "INPUT" = "run/INPUT".
Proof. reflexivity. Qed.

Example join_trailing_slash : os_path_join "run/" "INPUT" = "run/INPUT".
Proof. reflexivity. Qed.

Example join_absolute : os_path_join "run" "/scratch/INPUT" = "/scratch/INPUT".
Proof. reflexivity. Qed.

Example components_skip_empty_and_dot :
  components "/a//b/./c/" = ["a"; "b"; "c"].
Proof. reflexivity. Qed.

Example range_up : py_range 3 10 3 = Some [3; 6; 9].
Proof. reflexivity. Qed.

Example range_down : py_range 5 3 (-1) = Some [5; 4].
Proof. reflexivity. Qed.

Example range_empty : py_range 5 3 2 = Some [].
Proof. reflexivity. Qed.

Example range_zero_step : py_range 0 5 0 = None.
Proof. reflexivity. Qed.

Example str_of_int : py_str (PInt (-20)) = "-20".
Proof. reflexivity. Qed.

Example path_drops_dot : Orog.Path_str (Orog.mkPath "./none") = "none".
Proof. reflexivity. Qed.

Example path_drops_trailing_slash : Orog.Path_str (Orog.mkPath "none/") = "none".
Proof. reflexivity. Qed.

Example path_two_slashes : Orog.Path_str (Orog.mkPath "//a/b") = "//a/b".
Proof. reflexivity. Qed.

Example path_three_slashes : Orog.Path_str (Orog.mkPath "///a/b") = "/a/b".
Proof. reflexivity. Qed.

Example path_empty : Orog.Path_str (Orog.mkPath "") = ".".
Proof. reflexivity. Qed.

Example dict_update_order :
  dict_update [("a", 1); ("b", 2)] [("b", 3); ("c", 4)]
  = [("a", 1); ("b", 3); ("c", 4)].
Proof. reflexivity. Qed.

End Checks.

(** ** Paths and the directory tree *)

Section PathFacts.








End PathFacts.

Section TreeFacts.






End TreeFacts.

(** ** Run-directory provisioning *)

Module ProvisioningProps.
Import Forecast.






(** C3: a conflict policy outside delete, rename and quit raises
    [ValueError] at once; the world, file system included, is the one
    the call started from. *)
Theorem create_directory_structure_rejects_unknown_policy
    (run_directory exist_act : string) (w : world) :
  exist_act ∉ ["delete"; "rename"; "quit"] →
  create_directory_structure run_directory exist_act w
  = (Raise (ValueError ("Bad argument: " +:+ exist_act)), w).
Proof.
  intros Hbad. unfold create_directory_structure.
  by rewrite bool_decide_eq_false_2.
Qed.

Definition some_world : world :=
  World (Dir {[ "work" := Dir {[ "run" := Dir {[ "old.nc" := File "x";
                                                 "INPUT" := Dir {[ "a" := File "b" ]} ]} ]} ]})
    ["work"] [] [] [] (fun _ => 0) "_20240101_000000" "".

Lemma create_directory_structure_rejects_unknown_policy_witness :
  create_directory_structure "run" "frobnicate" some_world
  = (Raise (ValueError "Bad argument: frobnicate"), some_world).
Proof.
  apply (create_directory_structure_rejects_unknown_policy "run" "frobnicate").
  eapply bool_decide_eq_false_1. vm_compute. reflexivity.
Defined.

(** C4: with the quit policy and a run directory that is already
    there, the call ends in [sys.exit(1)]: only a critical log record
    is added, the directory tree is the same, and an [except Exception]
    handler around the call does not intercept the exit. *)
Theorem quit_policy_exits_and_leaves_directory
    (run_directory : string) (w : world) :
  os_path_isdir run_directory w = (Ret true, w) →
  let w' := add_log CRITICAL
              [Lit "User chose quit option when creating directory"] w in
  create_directory_structure run_directory "quit" w = (Exit 1, w')
  ∧ root w' = root w
  ∧ 1 ≠ 0
  ∧ ∀ handler : exn → M unit,
      try_except (create_directory_structure run_directory "quit") handler w
      = (Exit 1, w').
Proof.
  intros Hdir w'.
  assert (create_directory_structure run_directory "quit" w = (Exit 1, w')) as E.
  { unfold create_directory_structure.
    rewrite bool_decide_eq_true_2 by set_solver. change (negb true) with false. cbv beta iota.
    rewrite bool_decide_eq_true_2 by done.
    unfold bind at 1. by rewrite Hdir. }
  repeat split; [done|done|].
  intros handler. unfold try_except. by rewrite E.
Qed.

Lemma quit_policy_exits_and_leaves_directory_witness :
  create_directory_structure "run" "quit" some_world
  = (Exit 1, add_log CRITICAL
               [Lit "User chose quit option when creating directory"] some_world).
Proof.
  apply (quit_policy_exits_and_leaves_directory "run" some_world).
  vm_compute. reflexivity.
Defined.



End ProvisioningProps.

(** ** The forecast driver: environment string, batch script and [run] *)

Module ForecastProps.
Import Forecast.

(** A computation is quiet when it spawns no process and submits no job. *)
Definition quiet {A} (c : M A) : Prop :=
  ∀ w r w', c w = (r, w') → procs w' = procs w ∧ jobs w' = jobs w.

Lemma quiet_ret {A} (a : A) : quiet (ret a).
Proof. by intros w r w' [= _ <-]. Qed.

Lemma quiet_raise {A} (e : exn) : quiet (raise (A := A) e).
Proof. by intros w r w' [= _ <-]. Qed.

Lemma quiet_sys_exit {A} (n : Z) : quiet (sys_exit (A := A) n).
Proof. by intros w r w' [= _ <-]. Qed.

Lemma quiet_lift {A} (x : result A) : quiet (lift x).
Proof. destruct x; [apply quiet_ret | apply quiet_raise]. Qed.

Lemma quiet_bind {A B} (c : M A) (k : A → M B) :
  quiet c → (∀ a, quiet (k a)) → quiet (bind c k).
Proof.
  intros Hc Hk w r w'. unfold bind.
  destruct (c w) as [[a|e|n] w1] eqn:E; destruct (Hc _ _ _ E) as [Hp Hj].
  - intros Ek. destruct (Hk _ _ _ _ Ek) as [Hp' Hj']. split; congruence.
  - by intros [= _ <-].
  - by intros [= _ <-].
Qed.

Lemma quiet_for_each {A} (l : list A) (body : A → M unit) :
  (∀ x, quiet (body x)) → quiet (for_each l body).
Proof.
  intros Hb. induction l as [|x l IH]; [apply quiet_ret|].
  apply quiet_bind; [apply Hb | by intros _].
Qed.

Lemma quiet_logging_info (m : list piece) : quiet (logging_info m).
Proof. by intros w r w' [= _ <-]. Qed.

Lemma quiet_logging_critical (m : list piece) : quiet (logging_critical m).
Proof. by intros w r w' [= _ <-]. Qed.

Lemma quiet_os_path_isdir (s : string) : quiet (os_path_isdir s).
Proof. by intros w r w' [= _ <-]. Qed.

Lemma quiet_os_makedirs (s : string) : quiet (os_makedirs s).
Proof.
  intros w r w'. unfold os_makedirs.
  repeat case_match; by intros [= _ <-].
Qed.

Lemma quiet_os_symlink (t s : string) : quiet (os_symlink t s).
Proof.
  intros w r w'. unfold os_symlink.
  repeat case_match; by intros [= _ <-].
Qed.

Lemma quiet_write_text (s t : string) : quiet (write_text s t).
Proof.
  intros w r w'. unfold write_text.
  repeat case_match; by intros [= _ <-].
Qed.

Lemma quiet_handle_existing (d act : string) : quiet (handle_existing d act).
Proof.
  intros w r w'. unfold handle_existing.
  repeat case_match; by intros [= _ <-].
Qed.

Create HintDb quiet.
#[local] Hint Resolve quiet_ret quiet_raise quiet_sys_exit quiet_lift
  quiet_logging_info quiet_logging_critical quiet_os_path_isdir
  quiet_os_makedirs quiet_os_symlink quiet_write_text
  quiet_handle_existing : quiet.

Ltac quiet_steps :=
  repeat first
    [ progress auto with quiet
    | apply quiet_bind; [|intros ?]
    | apply quiet_for_each; intros ?
    | case_match ].

Lemma quiet_create_directory_structure (d act : string) :
  quiet (create_directory_structure d act).
Proof. unfold create_directory_structure. quiet_steps. Qed.

Lemma quiet_stage_files (d : string) (files : list (string * string)) (link : bool) :
  quiet (stage_files d files link).
Proof.
  unfold stage_files. apply quiet_for_each. intros entry.
  destruct link; [apply quiet_os_symlink|].
  intros w r w'. case_match; [case_match|]; try by intros [= _ <-].
  apply quiet_write_text.
Qed.

Lemma quiet_define_boundary_files (self : FV3Forecast) :
  quiet (_define_boundary_files self).
Proof.
  unfold _define_boundary_files.
  destruct (_boundary_hours self _) as [[offset interval] endhour].
  generalize (ret (A := list (string * string)) []) (quiet_ret (A := list (string * string)) []).
  induction (tiles (_config self)) as [|tile l IH]; intros acc Hacc; [done|].
  simpl. apply IH. apply quiet_bind; [done|]. intros bf.
  case_match; auto with quiet.
Qed.

#[local] Hint Resolve quiet_create_directory_structure quiet_stage_files
  quiet_define_boundary_files : quiet.

(** The first half of [run]: provisioning of the run directory and
    staging of the two file categories. *)
Definition provision_and_stage (self : FV3Forecast) : M unit :=
  let run_directory := run_dir (_config self) in
  create_directory_structure run_directory "delete" ;;
  boundary_files <- _define_boundary_files self ;;
  let cycle_dependent' := dict_update (cycle_dependent (_config self)) boundary_files in
  for_each [static (_config self); cycle_dependent'] (fun files =>
    stage_files run_directory files true).

Definition run_time_args (self : FV3Forecast) : list string :=
  get (mpi_args (runtime_info (_config self))) [].

(** The command line of the model run. *)
Definition command (self : FV3Forecast) : string :=
  run_cmd self (run_time_args self).

Definition rta_record (self : FV3Forecast) : level * list piece :=
  (INFO, [Lit "CRH: RTA = ";
          Repr (VList ((fun x => VScalar (PStr x)) <$> run_time_args self));
          Lit " ";
          Repr (runtime_info_value (runtime_info (_config self)))]).

(** What a dry run writes to the log after staging. *)
Definition dry_run_report (self : FV3Forecast) : list (level * list piece) :=
  match _batch_script self with
  | Some _ =>
      [(INFO, [Lit "Batch Script:"]);
       (INFO, [Lit (BatchScript_str (batch_script self))])]
  | None =>
      [rta_record self; (INFO, [Lit "Would run: "]); (INFO, [Lit (command self)])]
  end.

Definition add_logs (records : list (level * list piece)) (w : world) : world :=
  fold_left (fun w r => add_log r.1 r.2 w) records w.

Lemma quiet_provision_and_stage (self : FV3Forecast) :
  quiet (provision_and_stage self).
Proof. unfold provision_and_stage. quiet_steps. Qed.

(** [run] is its first half followed by the mode-dependent rest. *)
Lemma run_after_staging (self : FV3Forecast) (cycle : datetime) (w : world) :
  run self cycle w =
    match provision_and_stage self w with
    | (Ret _, w1) =>
        match _batch_script self with
        | Some script_name =>
            if _dry_run self then (Ret tt, add_logs (dry_run_report self) w1)
            else
              let outpath := os_path_join (run_dir (_config self)) script_name in
              (BatchScript_dump (BatchScript_str (batch_script self)) outpath ;;
               scheduler_run_job outpath ;; ret tt) w1
        | None =>
            if _dry_run self then (Ret tt, add_logs (dry_run_report self) w1)
            else (Ret tt, add_proc (command self) (add_log INFO (rta_record self).2 w1))
        end
    | (Raise e, w1) => (Raise e, w1)
    | (Exit n, w1) => (Exit n, w1)
    end.
Proof.
  unfold run, provision_and_stage, bind.
  destruct (create_directory_structure _ _ w) as [[[]|e|n] w1]; [|done..].
  destruct (_define_boundary_files self w1) as [[bf|e|n] w2]; [|done..].
  destruct (for_each _ _ w2) as [[[]|e|n] w3]; [|done..].
  unfold dry_run_report.
  destruct (_batch_script self) as [name|], (_dry_run self); reflexivity.
Qed.

(** C9: the environment string is the five assignments below, in this
    order, joined by the delimiter; OMP_NUM_THREADS and OMP_STACKSIZE
    both print the value under the key threads, and 1 and 512m when
    the key is absent. *)
Theorem mpi_env_variables_five_pairs (self : FV3Forecast) (delimiter : string) :
  let omp_num_threads :=
    match threads (runtime_info (_config self)) with
    | Some v => py_str v
    | None => "1"
    end in
  let omp_stacksize :=
    match threads (runtime_info (_config self)) with
    | Some v => py_str v
    | None => "512m"
    end in
  _mpi_env_variables self delimiter
  = str_join delimiter
      ["KMP_AFFINITY=scatter";
       "OMP_NUM_THREADS=" +:+ omp_num_threads;
       "OMP_STACKSIZE=" +:+ omp_stacksize;
       "MPI_TYPE_DEPTH=20";
       "ESMF_RUNTIME_COMPLIANCECHECK=OFF:depth=4"]
  ∧ _mpi_env_variables self delimiter
    = "KMP_AFFINITY=scatter" +:+ delimiter
      +:+ ("OMP_NUM_THREADS=" +:+ omp_num_threads) +:+ delimiter
      +:+ ("OMP_STACKSIZE=" +:+ omp_stacksize) +:+ delimiter
      +:+ "MPI_TYPE_DEPTH=20" +:+ delimiter
      +:+ "ESMF_RUNTIME_COMPLIANCECHECK=OFF:depth=4".
Proof.
  unfold _mpi_env_variables.
  destruct (threads (runtime_info (_config self))) as [v|]; split; reflexivity.
Qed.



(** C1, as the code has it: a dry run provisions the run directory and
    stages the files exactly as a real run does, then only logs the
    batch script or the command.  It spawns no process, submits no job
    and writes no batch script. *)
Theorem dry_run_stages_then_only_logs
    (self : FV3Forecast) (cycle : datetime) (w : world) :
  _dry_run self = true →
  run self cycle w
  = match provision_and_stage self w with
    | (Ret _, w1) => (Ret tt, add_logs (dry_run_report self) w1)
    | (Raise e, w1) => (Raise e, w1)
    | (Exit n, w1) => (Exit n, w1)
    end
  ∧ procs (run self cycle w).2 = procs w
  ∧ jobs (run self cycle w).2 = jobs w
  ∧ root (run self cycle w).2 = root (provision_and_stage self w).2.
Proof.
  intros Hdry. rewrite run_after_staging, Hdry.
  pose proof (quiet_provision_and_stage self w) as Hq.
  destruct (provision_and_stage self w) as [[[]|e|n] w1];
    destruct (Hq _ _ eq_refl) as [Hp Hj]; cbn [snd].
  - unfold dry_run_report.
    by destruct (_batch_script self).
  - done.
  - done.
Qed.

(** C2, as the code has it: in direct mode the exit status of the
    subprocess is dropped.  Once staging has succeeded the call
    returns [None] whatever status the command has, and the only
    traces are a log record and the spawned command. *)
Theorem direct_run_discards_exit_status
    (self : FV3Forecast) (cycle : datetime) (w : world) :
  _batch_script self = None →
  _dry_run self = false →
  run self cycle w
  = match provision_and_stage self w with
    | (Ret _, w1) =>
        (Ret tt, add_proc (command self) (add_log INFO (rta_record self).2 w1))
    | (Raise e, w1) => (Raise e, w1)
    | (Exit n, w1) => (Exit n, w1)
    end
  ∧ ∀ e, (run self cycle w).1 = Raise e → (provision_and_stage self w).1 = Raise e.
Proof.
  intros Hb Hd. rewrite run_after_staging, Hb, Hd.
  by destruct (provision_and_stage self w) as [[[]|e|n] w1].
Qed.

Definition sample_driver (dry_run : bool) (script : option string) : FV3Forecast :=
  Driver
    (Config "run" [("a.nc", "/src/a.nc")] []
       (RuntimeInfo (Some (PInt 4)) (Some ["-n"; "4"])) [PInt 7] 6)
    (Lbcs (-3) 3 [Text "/lbc/tile"; FieldTile; Text ".f"; FieldForecastHour; Text ".nc"])
    dry_run script
    (fun args => str_join " " ("srun" :: args ++ ["fv3.exe"]))
    ["#SBATCH --account=acct"].

(** A world whose every command exits with status [rc]. *)
Definition world_exiting (rc : Z) : world :=
  World (Dir {[ "work" := Dir ∅ ]}) ["work"] [] [] [] (fun _ => rc) "" "".

(** What a caller can look at once [run] is over. *)
Definition observe (x : outcome unit * world)
    : outcome unit * (node * list (level * list piece) * list string * list string) :=
  (x.1, (root x.2, log x.2, procs x.2, jobs x.2)).

Lemma dry_run_stages_then_only_logs_witness :
  procs (run (sample_driver true None) 0 ProvisioningProps.some_world).2
  = procs ProvisioningProps.some_world.
Proof.
  apply (dry_run_stages_then_only_logs (sample_driver true None) 0
           ProvisioningProps.some_world).
  reflexivity.
Defined.

(** C1 as stated fails: a dry run over an existing run directory
    deletes what the directory held. *)
Lemma dry_run_changes_run_directory :
  _dry_run (sample_driver true None) = true
  ∧ lookup_path ["work"; "run"; "old.nc"] (root ProvisioningProps.some_world)
    = Some (File "x")
  ∧ lookup_path ["work"; "run"; "old.nc"]
      (root (run (sample_driver true None) 0 ProvisioningProps.some_world).2)
    = None
  ∧ root (run (sample_driver true None) 0 ProvisioningProps.some_world).2
    ≠ root ProvisioningProps.some_world.
Proof.
  assert (lookup_path ["work"; "run"; "old.nc"]
            (root (run (sample_driver true None) 0 ProvisioningProps.some_world).2)
          = None) as Hgone by (vm_compute; reflexivity).
  split; [reflexivity|]. split; [vm_compute; reflexivity|].
  split; [exact Hgone|].
  intros Heq. rewrite Heq in Hgone. vm_compute in Hgone. discriminate.
Qed.

Lemma direct_run_discards_exit_status_witness :
  (run (sample_driver false None) 0 (world_exiting 1)).1 = Ret tt
  ∧ procs (run (sample_driver false None) 0 (world_exiting 1)).2
    = ["srun -n 4 fv3.exe"].
Proof.
  rewrite (proj1 (direct_run_discards_exit_status (sample_driver false None) 0
                    (world_exiting 1) eq_refl eq_refl)).
  split; vm_compute; reflexivity.
Defined.

(** C2 as stated fails: a run whose command exits with status 1 and a
    run whose command exits with status 2 both return [None] and leave
    the same tree, log, process list and job list; so nothing the
    caller can look at gives the exit status back. *)
Lemma exit_status_is_not_on_the_result :
  returncode (world_exiting 1) (command (sample_driver false None)) = 1
  ∧ returncode (world_exiting 2) (command (sample_driver false None)) = 2
  ∧ (run (sample_driver false None) 0 (world_exiting 1)).1 = Ret tt
  ∧ observe (run (sample_driver false None) 0 (world_exiting 1))
    = observe (run (sample_driver false None) 0 (world_exiting 2))
  ∧ ¬ ∃ inspect : outcome unit * (node * list (level * list piece)
                                  * list string * list string) → Z,
        ∀ rc, rc ≠ 0 →
          inspect (observe (run (sample_driver false None) 0 (world_exiting rc))) = rc.
Proof.
  assert (observe (run (sample_driver false None) 0 (world_exiting 1))
          = observe (run (sample_driver false None) 0 (world_exiting 2))) as E
    by (vm_compute; reflexivity).
  split; [reflexivity|]. split; [reflexivity|].
  split; [vm_compute; reflexivity|]. split; [exact E|].
  intros [inspect H].
  pose proof (H 1 ltac:(done)) as H1. pose proof (H 2 ltac:(done)) as H2.
  rewrite E in H1. congruence.
Qed.

End ForecastProps.

(** ** The orog driver *)

Module OrogProps.
Import Orog.

























Definition sample_orog (grid : string) (items : option (gmap string scalar)) : Orog :=
  Driver (Config (Some (PStr grid)) items (Some (PStr "oro.nc")) None None)
    (MkPath "/" ["work"; "run"]) (fun s => "orog " +:+ s).



Lemma joined_is_not_none (a b : string) : a +:+ String slash b ≠ "none".
Proof.
  destruct a as [|c1 [|c2 [|c3 [|c4 [|c5 a]]]]]; cbv [String.append];
    intros [=]; discriminate.
Qed.

Lemma str_join_none (ps : list string) :
  str_join "/" ps = "none" ↔ ps = ["none"].
Proof.
  split; [|by intros ->].
  destruct ps as [|x [|y l]]; [done| by intros <- |].
  intros H. by apply joined_is_not_none in H.
Qed.

Lemma mkPath_anchor (s : string) :
  (startswith_slash s = false ∧ anchor (mkPath s) = "")
  ∨ (startswith_slash s = true
     ∧ (anchor (mkPath s) = "/" ∨ anchor (mkPath s) = "//")).
Proof.
  destruct s as [|c1 [|c2 [|c3 s]]]; simpl;
    repeat case_bool_decide; simpl; auto.
Qed.

Lemma Path_str_none (s : string) :
  Path_str (mkPath s) = "none"
  ↔ startswith_slash s = false ∧ components s = ["none"].
Proof.
  unfold Path_str. change (parts (mkPath s)) with (components s).
  destruct (mkPath_anchor s) as [[Hs ->]|[Hs [-> | ->]]]; rewrite Hs.
  - destruct (components s) as [|x l] eqn:E.
    + split; [done|by intros [_ ?]].
    + change ("" +:+ str_join "/" (x :: l)) with (str_join "/" (x :: l)).
      rewrite str_join_none. split; [by intros ->|by intros [_ ->]].
  - split; [|by intros [? _]].
    change ("/" +:+ ?x) with (String slash x). by intros [=].
  - split; [|by intros [? _]].
    by intros [=].
Qed.

(** C10, as the code has it: the test is on the normalised path.  For
    a string value [s] the task yields no asset exactly when [s] is a
    relative path whose only proper component is none (as in none,
    ./none or none/); otherwise it yields an asset over [Path(s)]
    that is ready exactly when that path is an existing regular file. *)
Theorem grid_file_asset (self : Orog) (s : string) :
  grid_file_entry (config self) = Some (PStr s) →
  ∃ assets,
    grid_file self = Ok (External (taskname self "Input grid file") assets)
    ∧ (startswith_slash s = false ∧ components s = ["none"] → assets = None)
    ∧ (¬ (startswith_slash s = false ∧ components s = ["none"]) →
       ∃ a, assets = Some a
            ∧ ref a = mkPath s
            ∧ ∀ w, ready a w = true
                   ↔ ∃ content, path_stat (Path_str (mkPath s)) w = Some (File content)).
Proof.
  intros Hs. unfold grid_file, config_grid_file. rewrite Hs. simpl.
  eexists. split; [reflexivity|].
  rewrite <- Path_str_none. split.
  - intros Hn. by rewrite bool_decide_eq_true_2.
  - intros Hn. rewrite bool_decide_eq_false_2 by done. simpl.
    eexists. split; [reflexivity|]. split; [done|].
    intros w. simpl. unfold Path_is_file.
    destruct (path_stat _ w) as [[c|t|m]|]; split; try done; try by eexists.
    all: by intros [? [=]].
Qed.

Definition orog_world : world :=
  World (Dir {[ "work" := Dir {[ "grid.nc" := File "tiles" ]} ]})
    ["work"] [] [] [] (fun _ => 0) "" "".

Lemma grid_file_asset_witness :
  ∃ assets,
    grid_file (sample_orog "grid.nc" None)
    = Ok (External "orog Input grid file" assets)
    ∧ ∃ a, assets = Some a ∧ ready a orog_world = true.
Proof.
  destruct (grid_file_asset (sample_orog "grid.nc" None) "grid.nc" eq_refl)
    as (assets & Hg & _ & Hsome).
  exists assets. split; [exact Hg|].
  destruct Hsome as (a & Ha & _ & Hready).
  - vm_compute. by intros [_ [=]].
  - exists a. split; [exact Ha|]. apply Hready.
    exists "tiles". vm_compute. reflexivity.
Defined.

(** C10 as stated fails: [./none] is not the string none, and the
    task still yields no asset. *)
Lemma grid_file_dot_slash_none :
  PStr "./none" ≠ PStr "none"
  ∧ grid_file_entry (config (sample_orog "./none" None)) = Some (PStr "./none")
  ∧ grid_file (sample_orog "./none" None)
    = Ok (External "orog Input grid file" None).
Proof. split; [done|]. split; [done|]. vm_compute. reflexivity. Qed.

End OrogProps.

(** ** Task dispatch in the [chgres_cube] API *)

Module ApiProps.
Import ChgresCubeApi.


(** An object with the single task [provisioned_rundir], which
    creates the run directory. *)
Definition sample_object : ChgresCube :=
  Object {[ "provisioned_rundir" := TaskMethod (os_makedirs "run") ]}.

Definition sample_class (config : option string) (cycle : Forecast.datetime)
    (batch dry_run : bool) : M ChgresCube :=
  ret sample_object.

Definition api_world : world :=
  World (Dir {[ "work" := Dir ∅ ]}) ["work"] [] [] [] (fun _ => 0) "" "digraph g {}".




End ApiProps.

(** ** More on task dispatch *)

Module ApiExtras.
Import ChgresCubeApi.

(** [execute] has one normal result: whenever it returns, it returns
    [True]. *)
Theorem execute_never_returns_False
    (_ChgresCube : option string → Forecast.datetime → bool → bool → M ChgresCube)
    (task : string) (cycle : Forecast.datetime) (config : option string)
    (batch dry_run : bool) (graph_file : option string)
    (w w' : world) (b : bool) :
  execute _ChgresCube task cycle config batch dry_run graph_file w = (Ret b, w') →
  b = true.
Proof.
  unfold execute, bind.
  destruct (_ChgresCube config cycle batch dry_run w) as [[obj|e|n] w1]; [|done..].
  destruct (lift (getattr obj task) w1) as [[f|e|n] w2]; [|done..].
  destruct (call f w2) as [[[]|e|n] w3]; [|done..].
  destruct graph_file as [g|].
  - unfold graph. destruct (write_text g _ w3) as [[[]|e|n] w4]; [|done..].
    unfold ret. by intros [= <- _].
  - unfold ret. by intros [= <- _].
Qed.

Lemma execute_never_returns_False_witness :
  true = true.
Proof.
  apply (execute_never_returns_False ApiProps.sample_class "provisioned_rundir" 0
           None false false None ApiProps.api_world
           (execute ApiProps.sample_class "provisioned_rundir" 0 None false false
              None ApiProps.api_world).2 true).
  vm_compute. reflexivity.
Defined.

(** An exception raised by the task is what [execute] raises, and the
    world is the one the task left: a graph file that was asked for is
    not written. *)
Theorem execute_propagates_task_exception
    (_ChgresCube : option string → Forecast.datetime → bool → bool → M ChgresCube)
    (task : string) (cycle : Forecast.datetime) (config : option string)
    (batch dry_run : bool) (graph_file : option string)
    (w w1 w2 : world) (obj : ChgresCube) (f : attr) (e : exn) :
  _ChgresCube config cycle batch dry_run w = (Ret obj, w1) →
  getattr obj task = Ok f →
  call f w1 = (Raise e, w2) →
  execute _ChgresCube task cycle config batch dry_run graph_file w = (Raise e, w2).
Proof.
  intros Hobj Hf Hcall. unfold execute, bind. rewrite Hobj, Hf.
  unfold lift, ret. by rewrite Hcall.
Qed.

(** A task that fails while creating a directory that exists. *)
Definition failing_object : ChgresCube :=
  Object {[ "provisioned_rundir" := TaskMethod (os_makedirs "/work") ]}.

Lemma execute_propagates_task_exception_witness :
  execute (fun _ _ _ _ => ret failing_object) "provisioned_rundir" 0 None
    false false (Some "graph.dot") ApiProps.api_world
  = (Raise (FileExistsError "/work"), ApiProps.api_world).
Proof.
  apply (execute_propagates_task_exception (fun _ _ _ _ => ret failing_object)
           "provisioned_rundir" 0 None false false (Some "graph.dot")
           ApiProps.api_world ApiProps.api_world ApiProps.api_world
           failing_object (TaskMethod (os_makedirs "/work")));
    vm_compute; reflexivity.
Defined.

(** A name that finds an attribute which cannot be called without
    arguments (a property, a data attribute, a method with parameters)
    raises [TypeError] once the object is built; nothing else happens. *)
Theorem execute_rejects_uncallable_attribute
    (_ChgresCube : option string → Forecast.datetime → bool → bool → M ChgresCube)
    (task : string) (cycle : Forecast.datetime) (config : option string)
    (batch dry_run : bool) (graph_file : option string)
    (w w1 : world) (obj : ChgresCube) (f : attr) :
  _ChgresCube config cycle batch dry_run w = (Ret obj, w1) →
  getattr obj task = Ok f →
  f = Data ∨ f = MethodArgs →
  ∃ msg,
    execute _ChgresCube task cycle config batch dry_run graph_file w
    = (Raise (TypeError msg), w1).
Proof.
  intros Hobj Hf Hkind. unfold execute, bind. rewrite Hobj, Hf.
  unfold lift, ret. destruct Hkind as [-> | ->]; by eexists.
Qed.

Lemma execute_rejects_uncallable_attribute_witness :
  ∃ msg,
    execute ApiProps.sample_class "__doc__" 0 None false false None
      ApiProps.api_world
    = (Raise (TypeError msg), ApiProps.api_world).
Proof.
  apply (execute_rejects_uncallable_attribute ApiProps.sample_class "__doc__" 0
           None false false None ApiProps.api_world ApiProps.api_world
           ApiProps.sample_object Data).
  - reflexivity.
  - vm_compute. reflexivity.
  - by left.
Defined.

Lemma place_path_lookup (p : list string) (v n n' : node) :
  place_path p v n = inr n' → lookup_path p n' = Some v.
Proof.
  revert n n'. induction p as [|c p IH]; intros n n'; [done|].
  destruct n as [| |m]; try done. destruct p as [|c' p].
  - simpl. intros [= <-]. by rewrite lookup_insert_eq.
  - change (place_path (c :: c' :: p) v (Dir m))
      with (match m !! c with
            | Some n0 =>
                match place_path (c' :: p) v n0 with
                | inr n1 => inr (Dir (<[c := n1]> m))
                | inl e => inl e
                end
            | None => inl ENOENT
            end).
    destruct (m !! c) as [n0|]; [|done].
    destruct (place_path (c' :: p) v n0) as [e|n1] eqn:E; [done|].
    intros [= <-]. cbn [lookup_path]. rewrite lookup_insert_eq. by eapply IH.
Qed.

(** What a successful [write_text] leaves: the file, with the text, at
    the path the string denotes; the working directory and the graph
    text are the same. *)
Lemma write_text_result (s text : string) (w w' : world) :
  write_text s text w = (Ret tt, w') →
  lookup_path (resolve w' s) (root w') = Some (File text)
  ∧ cwd w' = cwd w ∧ dot w' = dot w.
Proof.
  unfold write_text.
  destruct (lookup_path (resolve w s) (root w)) as [[c|t|m]|];
    try done;
    (destruct (place_path _ _ _) as [e|r] eqn:E; [done|]);
    intros [= <-]; (split; [|done]);
    by apply place_path_lookup in E.
Qed.

(** When a graph file is asked for and [execute] returns, the file at
    that path holds the DOT text of the task graph followed by a line
    feed. *)
Theorem execute_writes_graph_file
    (_ChgresCube : option string → Forecast.datetime → bool → bool → M ChgresCube)
    (task : string) (cycle : Forecast.datetime) (config : option string)
    (batch dry_run : bool) (graph_file : string) (w w' : world) (b : bool) :
  execute _ChgresCube task cycle config batch dry_run (Some graph_file) w
  = (Ret b, w') →
  lookup_path (resolve w' graph_file) (root w') = Some (File (dot w' +:+ LF)).
Proof.
  unfold execute, bind.
  destruct (_ChgresCube config cycle batch dry_run w) as [[obj|e|n] w1]; [|done..].
  destruct (lift (getattr obj task) w1) as [[f|e|n] w2]; [|done..].
  destruct (call f w2) as [[[]|e|n] w3]; [|done..].
  unfold graph.
  destruct (write_text graph_file _ w3) as [[[]|e|n] w4] eqn:E; [|done..].
  unfold ret. intros [= _ <-].
  apply write_text_result in E as (Hfile & _ & Hdot). by rewrite Hdot.
Qed.

Lemma execute_writes_graph_file_witness :
  lookup_path ["work"; "graph.dot"]
    (root (execute ApiProps.sample_class "provisioned_rundir" 0 None false false
             (Some "graph.dot") ApiProps.api_world).2)
  = Some (File ("digraph g {}" +:+ LF)).
Proof.
  assert (execute ApiProps.sample_class "provisioned_rundir" 0 None false false
            (Some "graph.dot") ApiProps.api_world
          = (Ret true,
             (execute ApiProps.sample_class "provisioned_rundir" 0 None false false
                (Some "graph.dot") ApiProps.api_world).2)) as Hrun
    by (vm_compute; reflexivity).
  exact (execute_writes_graph_file ApiProps.sample_class "provisioned_rundir" 0
           None false false "graph.dot" ApiProps.api_world _ true Hrun).
Defined.

End ApiExtras.

(** ** More on the orog driver *)

Module OrogExtras.
Import Orog OrogRun.



(** An [old_line1_items] mapping that is there but empty is false in
    the [if], stays in the content as a mapping and makes the join
    fail: no text is produced, and with a grid file configured the
    exception is [TypeError]. *)
Theorem input_config_empty_line1_items (self : Orog) :
  old_line1_items (config self) = Some ∅ →
  ∃ e, input_config_text self = Error e
       ∧ (is_Some (grid_file_entry (config self)) → ∃ msg, e = TypeError msg).
Proof.
  intros Hd. unfold input_config_text, config_grid_file. rewrite Hd.
  rewrite bool_decide_eq_true_2 by done. cbn [result_bind].
  destruct (grid_file_entry (config self)) as [v|]; cbn [result_bind].
  - eexists. split; [reflexivity|]. intros _. by eexists.
  - eexists. split; [reflexivity|]. by intros [? ?].
Qed.

Lemma input_config_empty_line1_items_witness :
  ∃ e, input_config_text (OrogProps.sample_orog "grid.nc" (Some ∅)) = Error e
       ∧ (is_Some (Some (PStr "grid.nc")) → ∃ msg, e = TypeError msg).
Proof.
  apply (input_config_empty_line1_items (OrogProps.sample_orog "grid.nc" (Some ∅))).
  reflexivity.
Defined.

Lemma result_map_first_error {A B} (f : A → result B) (pre post : list A)
    (x : A) (e : exn) :
  (∀ y, y ∈ pre → ∃ b, f y = Ok b) →
  f x = Error e →
  result_map f (pre ++ x :: post) = Error e.
Proof.
  intros Hpre Hx. induction pre as [|y pre IH]; simpl.
  - by rewrite Hx.
  - destruct (Hpre y) as [b ->]; [by left|]. simpl.
    rewrite IH; [done|]. intros z Hz. apply Hpre. by right.
Qed.

(** When [old_line1_items] is not empty and lacks one of the nine keys,
    the call raises [KeyError] for the first missing key in the fixed
    order. *)
Theorem input_config_missing_line1_key
    (self : Orog) (d : gmap string scalar) (pre post : list string) (k : string) :
  old_line1_items (config self) = Some d →
  d ≠ ∅ →
  ordered_entries = pre ++ k :: post →
  (∀ k', k' ∈ pre → is_Some (d !! k')) →
  d !! k = None →
  input_config_text self = Error (KeyError k).
Proof.
  intros Hd Hne Hsplit Hpre Hk. unfold input_config_text. rewrite Hd.
  rewrite bool_decide_eq_false_2 by done. rewrite Hsplit.
  rewrite (result_map_first_error _ pre post k (KeyError k)); [done| |by rewrite Hk].
  intros y Hy. destruct (Hpre y Hy) as [v ->]. by eexists.
Qed.

Lemma input_config_missing_line1_key_witness :
  input_config_text
    (OrogProps.sample_orog "grid.nc"
       (Some (list_to_map [("mtnres", PInt 1); ("lonb", PInt 0); ("jcap", PInt 0)])))
  = Error (KeyError "latb").
Proof.
  apply (input_config_missing_line1_key _
           (list_to_map [("mtnres", PInt 1); ("lonb", PInt 0); ("jcap", PInt 0)])
           ["mtnres"; "lonb"] ["jcap"; "nr"; "nf1"; "nf2"; "efac"; "blat"] "latb").
  - reflexivity.
  - intros Heq. apply (f_equal (fun m => m !! "mtnres")) in Heq.
    vm_compute in Heq. discriminate.
  - reflexivity.
  - intros k' Hk'.
    repeat (apply elem_of_cons in Hk' as [->|Hk']; [vm_compute; by eexists|]).
    by apply elem_of_nil in Hk'.
  - vm_compute. reflexivity.
Defined.

(** Without [old_line1_items] and with string values, the text is the
    grid file, then the orography file if there is one, then the mask
    flag ([.false.] by default), then the merge file ([none] by
    default), one per line. *)
Theorem input_config_defaults
    (self : Orog) (g : string) (orog mask_only merge_file : option string) :
  old_line1_items (config self) = None →
  grid_file_entry (config self) = Some (PStr g) →
  orog_file (config self) = PStr <$> orog →
  mask (config self) = PStr <$> mask_only →
  merge (config self) = PStr <$> merge_file →
  input_config_text self
  = Ok (str_join LF (g :: option_list orog
                       ++ [default ".false." mask_only; default "none" merge_file])).
Proof.
  intros Hn Hg Ho Hm Hmg.
  unfold input_config_text, config_grid_file. rewrite Hn, Hg, Ho, Hm, Hmg.
  by destruct orog, mask_only, merge_file.
Qed.

Lemma input_config_defaults_witness :
  input_config_text (Driver (Config (Some (PStr "grid.nc")) None None None None)
                       (MkPath "/" ["run"]) id)
  = Ok ("grid.nc" +:+ LF +:+ ".false." +:+ LF +:+ "none").
Proof.
  apply (input_config_defaults
           (Driver (Config (Some (PStr "grid.nc")) None None None None)
              (MkPath "/" ["run"]) id)
           "grid.nc" None None None); reflexivity.
Defined.

(** A scalar the content accepts: [None], which is left out, or a
    string. *)
Definition text_like (v : scalar) : Prop := v = PNone ∨ ∃ s, v = PStr s.

Lemma join_values_all_strings (sep : string) (items : list value) (text : string) :
  join_values sep items = Ok text →
  Forall (fun i => ∃ s, i = VScalar (PStr s)) items.
Proof.
  unfold join_values.
  destruct (result_map _ items) as [strs|e] eqn:E; [|done]. intros _.
  revert strs E. induction items as [|i items IH]; intros strs; [by constructor|].
  simpl. destruct i as [[| | |s]| |]; try done. simpl.
  destruct (result_map _ items) as [strs'|e] eqn:E'; [|done]. intros _.
  constructor; [by eexists|]. by eapply IH.
Qed.

Lemma filtered_item_text_like (sep : string) (items : list value)
    (text : string) (v : scalar) :
  join_values sep (filter (fun i => is_not_None i = true) items) = Ok text →
  VScalar v ∈ items →
  text_like v.
Proof.
  intros Hj Hv. apply join_values_all_strings in Hj.
  rewrite Forall_forall in Hj.
  assert (is_not_None (VScalar v) = true → ∃ s, v = PStr s) as Hstr.
  { intros Hnn. destruct (Hj (VScalar v)) as [s [= ->]]; [|by exists s].
    by apply list_elem_of_filter. }
  destruct v as [|b|z|s0]; [by left|right; by apply Hstr..].
Qed.

(** A text is produced only when the grid file is there and every
    value of [grid_file], [orog_file], [mask] and [merge] is [None] or
    a string: a boolean or a number under one of these keys makes the
    join raise. *)
Theorem input_config_text_needs_strings (self : Orog) (text : string) :
  input_config_text self = Ok text →
  (∃ v, grid_file_entry (config self) = Some v ∧ text_like v)
  ∧ (∀ v, orog_file (config self) = Some v → text_like v)
  ∧ (∀ v, mask (config self) = Some v → text_like v)
  ∧ (∀ v, merge (config self) = Some v → text_like v).
Proof.
  unfold input_config_text, config_grid_file.
  destruct (match old_line1_items (config self) with
            | Some d => _
            | None => _
            end) as [inputs|e]; [|done].
  cbn [result_bind].
  destruct (grid_file_entry (config self)) as [outgrid|]; [|done].
  cbn [result_bind]. intros Hj.
  pose proof (filtered_item_text_like _ _ _ outgrid Hj) as H1.
  pose proof (fun v => filtered_item_text_like _ _ _ v Hj) as Hall.
  split; [exists outgrid; split; [done|]; apply H1; set_solver|].
  split; [|split]; intros v Hv; apply Hall; rewrite Hv; simpl; set_solver.
Qed.

Lemma input_config_text_needs_strings_witness :
  ∃ v, grid_file_entry (config (OrogProps.sample_orog "grid.nc" None)) = Some v
       ∧ text_like v.
Proof.
  apply (input_config_text_needs_strings (OrogProps.sample_orog "grid.nc" None)
           ("grid.nc" +:+ LF +:+ "oro.nc" +:+ LF +:+ ".false." +:+ LF +:+ "none")).
  vm_compute. reflexivity.
Defined.

End OrogExtras.

(** ** Paths of the orog driver *)

Module OrogPathExtras.
Import Orog OrogRun.








(** The command reads its standard input from the name of the input
    config file, [INPS], wherever the run directory is: it is the last
    component of the path the [input_config_file] task writes. *)
Theorem runcmd_reads_input_config (self : Orog) (executable : string) :
  _runcmd self executable = executable +:+ " < INPS"
  ∧ ∀ t, input_config_file self = Ok t →
         Path_name (ref (task_assets t)) = "INPS"
         ∧ parts (ref (task_assets t)) = parts (rundir self) ++ ["INPS"].
Proof.
  assert (Path_name (_input_config_path self) = "INPS") as Hname.
  { unfold Path_name, _input_config_path, Path_div. simpl.
    change (components "INPS") with ["INPS"]. by rewrite last_snoc. }
  split.
  - unfold _runcmd. by rewrite Hname.
  - intros t. unfold input_config_file.
    destruct (grid_file self) as [req|e]; [|done]. simpl. by intros [= <-].
Qed.

End OrogPathExtras.

(** ** More on the forecast driver *)

Module ForecastExtras.
Import Forecast ForecastResources.

(** The name of the link for a tile and a forecast hour. *)
Definition link_name (tile : scalar) (forecast_hour : Z) : string :=
  "gfs_bndy.tile" +:+ py_str tile +:+ "." +:+ pretty forecast_hour +:+ ".nc".

(** One pass of the inner loop body of [_define_boundary_files]. *)
Definition add_boundary_file (self : FV3Forecast) (tile : scalar)
    (boundary_files : list (string * string)) (boundary_hour : Z)
    : list (string * string) :=
  let offset := Z.abs (offset (lateral_boundary_conditions self)) in
  dict_set (link_name tile (boundary_hour - offset))
    (format (output_file_template (lateral_boundary_conditions self)) tile boundary_hour)
    boundary_files.

(** The two nested loops over tiles and hours, without the monad. *)
Definition boundary_files_of (self : FV3Forecast) (hours : list Z)
    (tiles : list scalar) (start : list (string * string)) : list (string * string) :=
  fold_left (fun acc tile => fold_left (add_boundary_file self tile) hours acc)
    tiles start.

(** The hours [range] produces for this driver. *)
Definition boundary_range (self : FV3Forecast) : option (list Z) :=
  let offset := Z.abs (offset (lateral_boundary_conditions self)) in
  py_range offset (length (_config self) + offset + 1)
    (interval_hours (lateral_boundary_conditions self)).

Lemma define_boundary_files_unfold (self : FV3Forecast) (w : world) :
  _define_boundary_files self w
  = match boundary_range self with
    | Some hours => (Ret (boundary_files_of self hours (tiles (_config self)) []), w)
    | None =>
        match tiles (_config self) with
        | [] => (Ret [], w)
        | _ :: _ => (Raise (ValueError "range() arg 3 must not be zero"), w)
        end
    end.
Proof.
  unfold _define_boundary_files, boundary_range, boundary_files_of, _boundary_hours.
  set (off := Z.abs (offset (lateral_boundary_conditions self))).
  set (stop := length (_config self) + off + 1).
  destruct (py_range off stop _) as [hours|].
  - assert (∀ l (acc : M (list (string * string))) d,
              (∀ w, acc w = (Ret d, w)) →
              ∀ w, fold_left
                     (fun acc tile =>
                        boundary_files <- acc ;;
                        ret (fold_left
                               (fun boundary_files boundary_hour =>
                                  dict_update boundary_files
                                    [("gfs_bndy.tile" +:+ py_str tile +:+ "." +:+
                                      pretty (boundary_hour - off) +:+ ".nc",
                                      format (output_file_template
                                                (lateral_boundary_conditions self))
                                        tile boundary_hour)])
                               hours boundary_files)) l acc w
                   = (Ret (fold_left
                             (fun acc tile =>
                                fold_left (add_boundary_file self tile) hours acc)
                             l d), w)) as Hfold.
    { induction l as [|tile l IH]; intros acc d Hacc w0; [apply Hacc|].
      simpl. apply IH. intros w1. unfold bind. rewrite Hacc. reflexivity. }
    apply Hfold. by intros ?.
  - destruct (tiles (_config self)) as [|tile l]; [done|].
    assert (∀ l (acc : M (list (string * string))) e,
              (∀ w, acc w = (Raise e, w)) →
              ∀ w, fold_left
                     (fun (acc : M (list (string * string))) (tile : scalar) =>
                        boundary_files <- acc ;;
                        raise (ValueError "range() arg 3 must not be zero"))
                     l acc w
                   = (Raise e, w)) as Hfold.
    { induction l0 as [|t l0 IH]; intros acc e Hacc w0; [apply Hacc|].
      simpl. apply IH. intros w1. unfold bind. by rewrite Hacc. }
    simpl. apply Hfold. by intros ?.
Qed.

(** With an interval of zero hours [range] raises [ValueError], but
    only once a tile is being processed: with no tiles the result is
    the empty mapping.  Either way the world is left alone. *)
Theorem define_boundary_files_zero_interval (self : FV3Forecast) (w : world) :
  interval_hours (lateral_boundary_conditions self) = 0 →
  _define_boundary_files self w
  = match tiles (_config self) with
    | [] => (Ret [], w)
    | _ :: _ => (Raise (ValueError "range() arg 3 must not be zero"), w)
    end.
Proof.
  intros Hz. rewrite define_boundary_files_unfold.
  unfold boundary_range, py_range. by rewrite Hz.
Qed.

Lemma define_boundary_files_zero_interval_witness :
  _define_boundary_files
    (Driver (Config "run" [] [] (RuntimeInfo None None) [PInt 7] 6)
       (Lbcs 3 0 [Text "lbc"]) false None (fun _ => "fv3") [])
    ProvisioningProps.some_world
  = (Raise (ValueError "range() arg 3 must not be zero"), ProvisioningProps.some_world).
Proof.
  apply (define_boundary_files_zero_interval
           (Driver (Config "run" [] [] (RuntimeInfo None None) [PInt 7] 6)
              (Lbcs 3 0 [Text "lbc"]) false None (fun _ => "fv3") [])
           ProvisioningProps.some_world).
  reflexivity.
Defined.

(** With a negative interval and a forecast length that is not
    negative, no boundary file is defined at all, and no exception is
    raised. *)
Theorem define_boundary_files_negative_interval (self : FV3Forecast) (w : world) :
  interval_hours (lateral_boundary_conditions self) < 0 →
  0 ≤ length (_config self) →
  _define_boundary_files self w = (Ret [], w).
Proof.
  intros Hneg Hlen. rewrite define_boundary_files_unfold.
  unfold boundary_range, py_range.
  set (off := Z.abs (offset (lateral_boundary_conditions self))).
  set (step := interval_hours (lateral_boundary_conditions self)) in *.
  rewrite (proj2 (Z.eqb_neq step 0)) by lia.
  rewrite (proj2 (Z.ltb_ge 0 step)) by lia.
  assert (Z.to_nat ((off - (length (_config self) + off + 1) - step - 1) / - step)
          = 0%nat) as ->.
  { assert ((off - (length (_config self) + off + 1) - step - 1) / - step < 1)
      by (apply Z.div_lt_upper_bound; lia).
    lia. }
  simpl. unfold boundary_files_of.
  induction (tiles (_config self)) as [|t l IH]; [done|]. simpl. exact IH.
Qed.

Lemma define_boundary_files_negative_interval_witness :
  _define_boundary_files
    (Driver (Config "run" [] [] (RuntimeInfo None None) [PInt 7] 6)
       (Lbcs 3 (-3) [Text "lbc"]) false None (fun _ => "fv3") [])
    ProvisioningProps.some_world
  = (Ret [], ProvisioningProps.some_world).
Proof.
  apply (define_boundary_files_negative_interval
           (Driver (Config "run" [] [] (RuntimeInfo None None) [PInt 7] 6)
              (Lbcs 3 (-3) [Text "lbc"]) false None (fun _ => "fv3") [])
           ProvisioningProps.some_world); simpl; lia.
Defined.

(** *** Dictionaries *)

Lemma dict_lookup_dict_set {V} (k' k : string) (v : V) (d : list (string * V)) :
  dict_lookup k' (dict_set k v d)
  = if bool_decide (k' = k) then Some v else dict_lookup k' d.
Proof.
  induction d as [|[k0 v0] d IH]; simpl.
  - by case_bool_decide.
  - destruct (bool_decide (k = k0)) eqn:E0; simpl.
    + apply bool_decide_eq_true_1 in E0 as <-.
      by case_bool_decide.
    + rewrite IH. apply bool_decide_eq_false_1 in E0.
      repeat case_bool_decide; congruence.
Qed.

Lemma elem_of_dict_set {V} (kv : string * V) (k : string) (v : V)
    (d : list (string * V)) :
  kv ∈ dict_set k v d → kv = (k, v) ∨ kv ∈ d.
Proof.
  induction d as [|[k0 v0] d IH]; simpl.
  - intros Hkv. apply list_elem_of_singleton in Hkv. by left.
  - case_bool_decide.
    + intros Hkv. apply elem_of_cons in Hkv as [->|Hkv]; [by left|].
      right. by right.
    + intros Hkv. apply elem_of_cons in Hkv as [->|Hkv]; [right; by left|].
      destruct (IH Hkv) as [->|Hd]; [by left|]. right. by right.
Qed.

Lemma elem_of_dict_update {V} (kv : string * V) (d new : list (string * V)) :
  kv ∈ dict_update d new → kv ∈ d ∨ kv ∈ new.
Proof.
  unfold dict_update. revert d. induction new as [|[k v] new IH]; intros d; simpl.
  - by left.
  - intros Hkv. destruct (IH _ Hkv) as [Hd|Hn]; [|right; by right].
    apply elem_of_dict_set in Hd as [->|Hd]; [right; by left|by left].
Qed.

(** Keys that [new] does not mention keep their value. *)
Lemma dict_lookup_update_other {V} (k : string) (d new : list (string * V)) :
  k ∉ new.*1 → dict_lookup k (dict_update d new) = dict_lookup k d.
Proof.
  unfold dict_update. revert d. induction new as [|[k1 v1] new IH]; intros d; simpl.
  - done.
  - intros Hk. rewrite IH by (intros ?; apply Hk; by right).
    rewrite dict_lookup_dict_set.
    rewrite bool_decide_eq_false_2; [done|]. intros ->. apply Hk. by left.
Qed.

(** When [new] never gives two values to one key, every pair of [new]
    can be read back after the update. *)
Lemma dict_lookup_update_new {V} (k : string) (v : V) (d new : list (string * V)) :
  (∀ k0 v1 v2, (k0, v1) ∈ new → (k0, v2) ∈ new → v1 = v2) →
  (k, v) ∈ new →
  dict_lookup k (dict_update d new) = Some v.
Proof.
  unfold dict_update. revert d. induction new as [|[k1 v1] new IH]; intros d Hfun Hkv.
  - by apply elem_of_nil in Hkv.
  - simpl. destruct (decide (k ∈ new.*1)) as [Hin|Hout].
    + apply list_elem_of_fmap in Hin as [[k' v'] [-> Hin]]. simpl in *.
      assert (v' = v) as -> by (eapply Hfun; [by right|done]).
      apply IH; [|done]. intros k0 u1 u2 H1 H2. eapply Hfun; by right.
    + pose proof (dict_lookup_update_other k (dict_set k1 v1 d) new Hout) as Ho.
      unfold dict_update in Ho. rewrite Ho, dict_lookup_dict_set.
      apply elem_of_cons in Hkv as [[= -> ->]|Hkv].
      * by rewrite bool_decide_eq_true_2.
      * exfalso. apply Hout. apply list_elem_of_fmap. by exists (k, v).
Qed.

(** *** The hours of the range *)

Lemma py_range_positive_step (start stop step : Z) :
  0 < step →
  ∃ hours, py_range start stop step = Some hours
           ∧ ∀ h, h ∈ hours
                  ↔ ∃ i : nat, h = start + Z.of_nat i * step ∧ h < stop.
Proof.
  intros Hstep. unfold py_range.
  rewrite (proj2 (Z.eqb_neq step 0)) by lia.
  rewrite (proj2 (Z.ltb_lt 0 step)) by lia.
  eexists. split; [reflexivity|]. intros h.
  set (q := (stop - start + step - 1) / step).
  assert (step * q ≤ stop - start + step - 1) as Hlow
    by (apply Z.mul_div_le; lia).
  rewrite list_elem_of_fmap. split.
  - intros (i & -> & Hi). apply elem_of_seq in Hi. exists i. split; [done|]. nia.
  - intros (i & -> & Hlt). exists i. split; [done|]. apply elem_of_seq.
    assert (Z.of_nat i + 1 ≤ q) by (apply Z.div_le_lower_bound; nia). lia.
Qed.

(** *** The pairs the two loops generate *)

Definition boundary_pair (self : FV3Forecast) (tile : scalar) (boundary_hour : Z)
    : string * string :=
  (link_name tile
     (boundary_hour - Z.abs (offset (lateral_boundary_conditions self))),
   format (output_file_template (lateral_boundary_conditions self)) tile boundary_hour).

Definition boundary_pairs (self : FV3Forecast) (hours : list Z)
    (tiles : list scalar) : list (string * string) :=
  tiles ≫= (fun tile => boundary_pair self tile <$> hours).

Lemma boundary_files_of_update (self : FV3Forecast) (hours : list Z)
    (tiles : list scalar) (start : list (string * string)) :
  boundary_files_of self hours tiles start
  = dict_update start (boundary_pairs self hours tiles).
Proof.
  unfold boundary_files_of, boundary_pairs, dict_update.
  revert start. induction tiles as [|tile tiles IH]; intros start; [done|].
  cbn [fold_left mbind list_bind]. rewrite fold_left_app, IH. f_equal.
  generalize start. clear. induction hours as [|h hours IH]; intros start; [done|].
  simpl. by rewrite IH.
Qed.

Lemma elem_of_boundary_pairs (self : FV3Forecast) (hours : list Z)
    (tiles : list scalar) (kv : string * string) :
  kv ∈ boundary_pairs self hours tiles
  ↔ ∃ tile bh, tile ∈ tiles ∧ bh ∈ hours ∧ kv = boundary_pair self tile bh.
Proof.
  unfold boundary_pairs. rewrite list_elem_of_bind. split.
  - intros (tile & Hkv & Ht). apply list_elem_of_fmap in Hkv as (bh & -> & Hbh).
    by exists tile, bh.
  - intros (tile & bh & Ht & Hbh & ->). exists tile. split; [|done].
    apply list_elem_of_fmap. by exists bh.
Qed.

(** *** Link names determine the tile text and the hour *)

(** The string split at its last full stop, when it has one. *)
Fixpoint split_last_dot (s : string) : option (string * string) :=
  match s with
  | EmptyString => None
  | String c s' =>
      match split_last_dot s' with
      | Some (a, b) => Some (String c a, b)
      | None => if bool_decide (c = "."%char) then Some ("", s') else None
      end
  end.

Lemma split_last_dot_app (a d : string) :
  split_last_dot d = None →
  split_last_dot (a +:+ String "."%char d) = Some (a, d).
Proof.
  intros Hd. induction a as [|c a IH].
  - simpl. by rewrite Hd.
  - change (String c a +:+ String "."%char d) with (String c (a +:+ String "."%char d)).
    simpl. by rewrite IH.
Qed.

Lemma no_dot_pretty_N_go (x : N) (s : string) :
  split_last_dot s = None → split_last_dot (pretty_N_go x s) = None.
Proof.
  revert s. induction (N.lt_wf_0 x) as [x _ IH]. intros s Hs.
  destruct (decide (x = 0%N)) as [->|Hx].
  - by rewrite pretty_N_go_0.
  - rewrite pretty_N_go_step by lia. apply IH.
    + apply N.div_lt; lia.
    + simpl. rewrite Hs.
      rewrite bool_decide_eq_false_2; [done|].
      unfold pretty_N_char. by repeat case_match.
Qed.

Lemma no_dot_pretty_Z (z : Z) : split_last_dot (pretty z) = None.
Proof.
  assert (∀ x : N, split_last_dot (pretty x) = None) as HN.
  { intros x. unfold pretty, pretty_N. case_decide; [done|].
    by apply no_dot_pretty_N_go. }
  unfold pretty, pretty_Z. destruct z as [|p|p].
  - apply (HN 0%N).
  - apply HN.
  - assert (∀ d, split_last_dot d = None → split_last_dot ("-" +:+ d) = None)
      as Hdash.
    { intros d Hd. change ("-" +:+ d) with (String "-"%char d).
      simpl. by rewrite Hd. }
    apply Hdash. apply (HN (N.pos p)).
Qed.

Lemma append_assoc (a b c : string) : (a +:+ b) +:+ c = a +:+ b +:+ c.
Proof.
  induction a as [|x a IH]; [reflexivity|].
  change (String x ((a +:+ b) +:+ c) = String x (a +:+ b +:+ c)).
  by rewrite IH.
Qed.

Lemma link_name_inj (t1 t2 : scalar) (h1 h2 : Z) :
  link_name t1 h1 = link_name t2 h2 → py_str t1 = py_str t2 ∧ h1 = h2.
Proof.
  unfold link_name. intros Heq.
  apply (inj (String.append "gfs_bndy.tile")) in Heq.
  apply (f_equal split_last_dot) in Heq.
  assert (∀ (t : scalar) (h : Z),
            split_last_dot (py_str t +:+ "." +:+ pretty h +:+ ".nc")
                 = Some (py_str t +:+ "." +:+ pretty h, "nc")) as Houter.
  { intros t h.
    replace (py_str t +:+ "." +:+ pretty h +:+ ".nc")
      with ((py_str t +:+ "." +:+ pretty h) +:+ String "."%char "nc")
      by (by rewrite !append_assoc).
    by apply split_last_dot_app. }
  rewrite !Houter in Heq. injection Heq as Heq.
  apply (f_equal split_last_dot) in Heq.
  change (?a +:+ "." +:+ ?d) with (a +:+ String "."%char d) in Heq.
  rewrite !split_last_dot_app in Heq by apply no_dot_pretty_Z.
  injection Heq as Ht Hh. split; [done|]. by apply (inj pretty).
Qed.

Lemma format_py_str (template : list segment) (t1 t2 : scalar) (h : Z) :
  py_str t1 = py_str t2 → format template t1 h = format template t2 h.
Proof.
  intros Ht. unfold format. induction template as [|seg template IH]; [done|].
  simpl. rewrite IH. by destruct seg; rewrite ?Ht.
Qed.

(** *** What [_define_boundary_files] returns for a positive interval *)

Lemma define_boundary_files_positive (self : FV3Forecast) (w : world) :
  0 < interval_hours (lateral_boundary_conditions self) →
  ∃ hours,
    _define_boundary_files self w
    = (Ret (dict_update [] (boundary_pairs self hours (tiles (_config self)))), w)
    ∧ ∀ bh, bh ∈ hours
            ↔ ∃ i : nat,
                bh = Z.abs (offset (lateral_boundary_conditions self))
                     + Z.of_nat i * interval_hours (lateral_boundary_conditions self)
                ∧ Z.of_nat i * interval_hours (lateral_boundary_conditions self)
                  ≤ length (_config self).
Proof.
  intros Hpos. rewrite define_boundary_files_unfold. unfold boundary_range.
  destruct (py_range_positive_step
              (Z.abs (offset (lateral_boundary_conditions self)))
              (length (_config self)
               + Z.abs (offset (lateral_boundary_conditions self)) + 1)
              _ Hpos) as (hours & -> & Hmem).
  exists hours. split; [by rewrite boundary_files_of_update|].
  intros bh. rewrite Hmem. split; intros (i & -> & Hi); exists i; split; lia.
Qed.

(** For a positive interval the call returns a mapping, leaves the
    world alone, and every entry of the mapping links
    [gfs_bndy.tile<t>.<h>.nc], for a configured tile [t] and a forecast
    hour [h] that is a multiple of the interval between 0 and the
    forecast length, to the template filled in with [t] and the
    boundary hour [h + |offset|]. *)
Theorem boundary_files_entries (self : FV3Forecast) (w : world) :
  0 < interval_hours (lateral_boundary_conditions self) →
  ∃ d,
    _define_boundary_files self w = (Ret d, w)
    ∧ ∀ k v, (k, v) ∈ d →
        ∃ (tile : scalar) (i : nat),
          tile ∈ tiles (_config self)
          ∧ Z.of_nat i * interval_hours (lateral_boundary_conditions self)
            ≤ length (_config self)
          ∧ k = link_name tile
                  (Z.of_nat i * interval_hours (lateral_boundary_conditions self))
          ∧ v = format (output_file_template (lateral_boundary_conditions self)) tile
                  (Z.of_nat i * interval_hours (lateral_boundary_conditions self)
                   + Z.abs (offset (lateral_boundary_conditions self))).
Proof.
  intros Hpos.
  destruct (define_boundary_files_positive self w Hpos) as (hours & -> & Hmem).
  eexists. split; [reflexivity|]. intros k v Hkv.
  apply elem_of_dict_update in Hkv as [Hkv|Hkv]; [by apply elem_of_nil in Hkv|].
  apply elem_of_boundary_pairs in Hkv as (tile & bh & Ht & Hbh & Heq).
  apply Hmem in Hbh as (i & -> & Hi). exists tile, i.
  pose proof (f_equal fst Heq) as K. pose proof (f_equal snd Heq) as V.
  unfold boundary_pair in K, V. cbn [fst snd] in K, V. subst k v.
  repeat split; [done|done|f_equal; lia|f_equal; lia].
Qed.

Lemma boundary_files_entries_witness :
  ∃ d,
    _define_boundary_files (ForecastProps.sample_driver false None)
      ProvisioningProps.some_world
    = (Ret d, ProvisioningProps.some_world)
    ∧ d = [("gfs_bndy.tile7.0.nc", "/lbc/tile7.f3.nc");
           ("gfs_bndy.tile7.3.nc", "/lbc/tile7.f6.nc");
           ("gfs_bndy.tile7.6.nc", "/lbc/tile7.f9.nc")].
Proof.
  destruct (boundary_files_entries (ForecastProps.sample_driver false None)
              ProvisioningProps.some_world) as (d & Hd & _).
  - simpl. lia.
  - exists d. split; [exact Hd|].
    assert (_define_boundary_files (ForecastProps.sample_driver false None)
              ProvisioningProps.some_world
            = (Ret [("gfs_bndy.tile7.0.nc", "/lbc/tile7.f3.nc");
                    ("gfs_bndy.tile7.3.nc", "/lbc/tile7.f6.nc");
                    ("gfs_bndy.tile7.6.nc", "/lbc/tile7.f9.nc")],
               ProvisioningProps.some_world)) as Hc by (vm_compute; reflexivity).
    rewrite Hc in Hd. by injection Hd as <-.
Defined.

(** For a positive interval, every configured tile [t] and every
    forecast hour [h] that is a multiple of the interval between 0 and
    the forecast length, the mapping sends [gfs_bndy.tile<t>.<h>.nc]
    to the template filled in with [t] and the hour [h + |offset|]:
    no link is missing and none is shadowed by another tile or hour. *)
Theorem boundary_files_lookup
    (self : FV3Forecast) (w : world) (tile : scalar) (i : nat) :
  0 < interval_hours (lateral_boundary_conditions self) →
  tile ∈ tiles (_config self) →
  Z.of_nat i * interval_hours (lateral_boundary_conditions self)
  ≤ length (_config self) →
  ∃ d,
    _define_boundary_files self w = (Ret d, w)
    ∧ dict_lookup
        (link_name tile (Z.of_nat i * interval_hours (lateral_boundary_conditions self)))
        d
      = Some (format (output_file_template (lateral_boundary_conditions self)) tile
                (Z.of_nat i * interval_hours (lateral_boundary_conditions self)
                 + Z.abs (offset (lateral_boundary_conditions self)))).
Proof.
  intros Hpos Htile Hi.
  destruct (define_boundary_files_positive self w Hpos) as (hours & -> & Hmem).
  eexists. split; [reflexivity|].
  apply dict_lookup_update_new.
  - intros k v1 v2 H1 H2.
    apply elem_of_boundary_pairs in H1 as (t1 & b1 & _ & _ & E1).
    apply elem_of_boundary_pairs in H2 as (t2 & b2 & _ & _ & E2).
    pose proof (f_equal fst E1) as K1. pose proof (f_equal snd E1) as V1.
    pose proof (f_equal fst E2) as K2. pose proof (f_equal snd E2) as V2.
    unfold boundary_pair in K1, V1, K2, V2. cbn [fst snd] in K1, V1, K2, V2.
    rewrite K1 in K2. apply link_name_inj in K2 as [Ht Hb].
    assert (b2 = b1) as -> by lia. rewrite V1, V2. by apply format_py_str.
  - apply elem_of_boundary_pairs.
    exists tile, (Z.abs (offset (lateral_boundary_conditions self))
                  + Z.of_nat i * interval_hours (lateral_boundary_conditions self)).
    split; [done|]. split; [apply Hmem; by exists i|].
    unfold boundary_pair. f_equal; f_equal; lia.
Qed.

Lemma boundary_files_lookup_witness :
  ∃ d,
    _define_boundary_files (ForecastProps.sample_driver false None)
      ProvisioningProps.some_world
    = (Ret d, ProvisioningProps.some_world)
    ∧ dict_lookup "gfs_bndy.tile7.6.nc" d = Some "/lbc/tile7.f9.nc".
Proof.
  apply (boundary_files_lookup (ForecastProps.sample_driver false None)
           ProvisioningProps.some_world (PInt 7) 2).
  - simpl. lia.
  - simpl. by left.
  - simpl. lia.
Defined.

(** *** [resources] *)

Lemma dict_lookup_elem {V} (k : string) (v : V) (d : list (string * V)) :
  dict_lookup k d = Some v → (k, v) ∈ d.
Proof.
  induction d as [|[k0 v0] d IH]; simpl; [done|].
  case_bool_decide as Hk.
  - intros [= ->]. subst. by left.
  - intros Hl. right. by apply IH.
Qed.

Lemma dict_lookup_absent {V} (k : string) (d : list (string * V)) :
  dict_lookup k d = None → k ∉ d.*1.
Proof.
  induction d as [|[k0 v0] d IH]; simpl; [by intros _ ?%elem_of_nil|].
  case_bool_decide as Hk; [done|]. intros Hl Hin.
  apply elem_of_cons in Hin as [->|Hin]; [done|]. by apply IH.
Qed.

Lemma NoDup_keys_functional {V} (d : list (string * V)) (k : string) (v1 v2 : V) :
  NoDup d.*1 → (k, v1) ∈ d → (k, v2) ∈ d → v1 = v2.
Proof.
  induction d as [|[k0 v0] d IH]; [by intros _ ?%elem_of_nil|].
  simpl. intros Hnd H1 H2. apply NoDup_cons in Hnd as [Hk0 Hnd].
  apply elem_of_cons in H1 as [E1|H1]; apply elem_of_cons in H2 as [E2|H2].
  - congruence.
  - exfalso. apply Hk0. apply list_elem_of_fmap. exists (k, v2).
    split; [|done]. simpl. congruence.
  - exfalso. apply Hk0. apply list_elem_of_fmap. exists (k, v1).
    split; [|done]. simpl. congruence.
  - by apply IH.
Qed.

(** A key of [jobinfo] carries its [jobinfo] value in the result, also
    when the key is account or scheduler, which then override the
    user's account and the platform's scheduler; the two are there
    otherwise, and no other key is added. *)
Theorem resources_lookup (e : experiment_t) (k : string) :
  NoDup (jobinfo e).*1 →
  dict_lookup k (resources e)
  = match dict_lookup k (jobinfo e) with
    | Some v => Some v
    | None =>
        if bool_decide (k = "account") then Some (user_account e)
        else if bool_decide (k = "scheduler") then Some (platform_scheduler e)
        else None
    end.
Proof.
  intros Hnd. unfold resources.
  destruct (dict_lookup k (jobinfo e)) as [v|] eqn:E.
  - apply dict_lookup_update_new; [|by apply dict_lookup_elem].
    intros k0 v1 v2. by apply NoDup_keys_functional.
  - rewrite dict_lookup_update_other by by apply dict_lookup_absent.
    simpl. by repeat case_bool_decide.
Qed.

Lemma resources_lookup_witness :
  dict_lookup "account"
    (resources (Experiment (PStr "user_acct") (PStr "slurm")
                  [("nodes", PInt 4); ("account", PStr "job_acct")]))
  = Some (PStr "job_acct").
Proof.
  apply (resources_lookup
           (Experiment (PStr "user_acct") (PStr "slurm")
              [("nodes", PInt 4); ("account", PStr "job_acct")]) "account").
  simpl. by apply (bool_decide_unpack _).
Defined.

(** *** [run] *)



(** A zero interval is found out only after the run directory has been
    reset: with at least one tile, [run] raises [ValueError] and the
    world is the one [create_directory_structure] left; nothing is
    staged or launched. *)
Theorem run_zero_interval_after_reset
    (self : FV3Forecast) (cycle : datetime) (w w1 : world) :
  interval_hours (lateral_boundary_conditions self) = 0 →
  tiles (_config self) ≠ [] →
  create_directory_structure (run_dir (_config self)) "delete" w = (Ret tt, w1) →
  run self cycle w = (Raise (ValueError "range() arg 3 must not be zero"), w1).
Proof.
  intros Hz Ht Hc. unfold run. unfold bind at 1. rewrite Hc.
  unfold bind at 1. rewrite define_boundary_files_unfold.
  unfold boundary_range, py_range. rewrite Hz. simpl.
  by destruct (tiles (_config self)).
Qed.

Definition zero_interval_driver : FV3Forecast :=
  Driver (Config "run" [] [] (RuntimeInfo None None) [PInt 7] 6)
    (Lbcs 3 0 [Text "lbc"]) false None (fun _ => "fv3") [].

Lemma run_zero_interval_after_reset_witness :
  (run zero_interval_driver 0 ProvisioningProps.some_world).1
  = Raise (ValueError "range() arg 3 must not be zero")
  ∧ lookup_path ["work"; "run"; "old.nc"]
      (root (run zero_interval_driver 0 ProvisioningProps.some_world).2)
    = None.
Proof.
  rewrite (run_zero_interval_after_reset zero_interval_driver 0
             ProvisioningProps.some_world
             (create_directory_structure "run" "delete"
                ProvisioningProps.some_world).2).
  - split; [reflexivity|]. vm_compute. reflexivity.
  - reflexivity.
  - done.
  - vm_compute. reflexivity.
Defined.



End ForecastExtras.
